(** * JobAlign AI: the retrying model calls and the JSON salvage

    A shallow embedding of the four entry points of the repository that
    call a remote model:

    - [analyze_with_gemini]          (UI/gemini_ui.py)
    - [analyze_resume_with_inputs]   (agents/resume_accept.py)
    - [analyze_resume]               (agents/resume_matcher.py)
    - [parse_resume], [_extract_json] (agents/resume_Parser.py)

    and of the functions around them: [get_multiline_input]
    (resume_accept.py), [get_resume_from_user_input],
    [get_resume_from_file], [list_saved_resumes] and
    [get_resume_from_list] (resume_Parser.py).

    Modelling conventions.

    - A Python [str] is a [string] whose characters are the code points
      below 256 (Latin-1).  [str.lower], [str.strip] and [in] are written
      out for that range.  The single character of the sources above it,
      the en dash of the prompt templates, is kept as its three UTF-8
      bytes; it occurs in prompt text only.
    - A Python [int] is a [Z].
    - The remote model is a function of the number of requests already
      made; the number of requests and the arguments of [time.sleep] are
      threaded through the code as an explicit [world].
    - The keyboard is the list of what successive [input()] calls
      meet; the file system is given by the three operations the code
      uses.
    - [print] and the Streamlit widgets are not modelled. *)

From Stdlib Require Import ZArith List Bool Ascii String Lia.
From Stdlib Require Import Numbers.DecimalString.
From Stdlib Require Import Sorting.Sorted Sorting.Permutation.
Import ListNotations.

Set Warnings "-register-all".

Open Scope string_scope.
Open Scope Z_scope.

(* ================================================================== *)
(** * Python strings                                                   *)
(* ================================================================== *)

Module Str.

(** The double quote, written by its code so that no literal needs one. *)
Definition dq : ascii := "034"%char.

(** The one-character string made of a double quote. *)
Definition Q : string := String dq EmptyString.

(** Lines joined by line feeds, as they stand in a triple-quoted literal. *)
Definition join_lines (ls : list string) : string :=
  String.concat (String "010"%char EmptyString) ls.

(** U+2013 as UTF-8. *)
Definition en_dash : string :=
  String "226"%char (String "128"%char (String "147"%char EmptyString)).

Definition code (c : ascii) : N := N_of_ascii c.

(** [c.isupper()] for a code point below 256: A-Z, and the Latin-1
    capitals U+00C0..U+00DE without the multiplication sign U+00D7. *)
Definition isupper (c : ascii) : bool :=
  let n := code c in
  ((65 <=? n) && (n <=? 90) ||
   (192 <=? n) && (n <=? 222) && negb (n =? 215))%N.

(** [c.lower()]: the small letter is 32 code points further. *)
Definition lower_chr (c : ascii) : ascii :=
  if isupper c then ascii_of_N (code c + 32) else c.

(** [s.lower()] *)
Fixpoint lower (s : string) : string :=
  match s with
  | EmptyString => EmptyString
  | String c r => String (lower_chr c) (lower r)
  end.

(** [c.isspace()] below 256: tab, LF, VT, FF, CR, the separators
    U+001C..U+001F, space, NEL and the no-break space. *)
Definition isspace (c : ascii) : bool :=
  let n := code c in
  ((9 <=? n) && (n <=? 13) || (28 <=? n) && (n <=? 32) ||
   (n =? 133) || (n =? 160))%N.

Fixpoint lstrip (s : string) : string :=
  match s with
  | EmptyString => EmptyString
  | String c r => if isspace c then lstrip r else s
  end.

Fixpoint rstrip (s : string) : string :=
  match s with
  | EmptyString => EmptyString
  | String c r =>
      match rstrip r with
      | EmptyString => if isspace c then EmptyString else String c EmptyString
      | r' => String c r'
      end
  end.

(** [s.strip()] *)
Definition strip (s : string) : string := rstrip (lstrip s).

(** Truth value of a [str]: [not s] is [negb (truthy s)]. *)
Definition truthy (s : string) : bool :=
  match s with EmptyString => false | _ => true end.

(** [s.startswith(x)] *)
Fixpoint startswith (x s : string) : bool :=
  match x, s with
  | EmptyString, _ => true
  | String a x', String b s' => Ascii.eqb a b && startswith x' s'
  | String _ _, EmptyString => false
  end.

(** [x in s]: [x] occurs in [s] at some position. *)
Fixpoint contains (x s : string) : bool :=
  startswith x s ||
  match s with
  | EmptyString => false
  | String _ r => contains x r
  end.

(** [any(x in s for x in xs)] *)
Definition any_in (xs : list string) (s : string) : bool :=
  existsb (fun x => contains x s) xs.

(** [str(n)] for an [int]. *)
Definition of_int (n : Z) : string := NilZero.string_of_int (Z.to_int n).

(** Every character of [s] is white space ([s] may be empty). *)
Definition blank (s : string) : Prop :=
  forall c, In c (list_ascii_of_string s) -> isspace c = true.

(** [x] occurs in [s], as a proposition. *)
Definition occurs (x s : string) : Prop :=
  exists pre post, s = pre ++ x ++ post.

(** One of the markers [xs] occurs in [s]. *)
Definition mentions (xs : list string) (s : string) : Prop :=
  exists x, In x xs /\ occurs x s.

(** [b] is [a] with its case possibly changed. *)
Definition recase_chr (a b : ascii) : Prop :=
  a = b \/ b = lower_chr a \/ a = lower_chr b.

(** [t] is [s] with the case of any of its characters changed. *)
Inductive recase : string -> string -> Prop :=
| recase_nil : recase EmptyString EmptyString
| recase_cons a b s t :
    recase_chr a b -> recase s t -> recase (String a s) (String b t).

End Str.

(* ================================================================== *)
(** * Exceptions, results and effects                                  *)
(* ================================================================== *)

(** The exceptions that reach a caller.  [ClientError] stands for an
    exception raised inside a client library, of any class other than
    [openai.RateLimitError], with [str(e)] as its argument. *)
Inductive exn : Type :=
| RuntimeError (msg : string)
| ValueError (msg : string)
| JSONDecodeError                 (* json.JSONDecodeError; its text is not modelled *)
| TypeError (msg : string)
| RateLimitError (msg : string)   (* openai.RateLimitError *)
| ClientError (msg : string).

(** [isinstance(e, ValueError)]: [json.JSONDecodeError] derives from
    [ValueError]. *)
Definition is_ValueError (e : exn) : bool :=
  match e with
  | ValueError _ | JSONDecodeError => true
  | _ => false
  end.

Inductive outcome (A : Type) : Type :=
| Return (v : A)
| Raise (e : exn).
Arguments Return {A} v.
Arguments Raise {A} e.

(** What a run has done so far: the requests sent to the remote model
    and the arguments of [time.sleep], oldest first. *)
Record world : Type := mkWorld { requests : nat; slept : list Z }.

Definition start : world := mkWorld 0 [].

Definition request (w : world) : world :=
  mkWorld (S (requests w)) (slept w).

Definition sleep (seconds : Z) (w : world) : world :=
  mkWorld (requests w) (slept w ++ [seconds])%list.

Definition total_backoff (w : world) : Z := fold_right Z.add 0 (slept w).

(** One turn of a [for] loop either goes on to the next item or leaves
    the function. *)
Inductive flow (A : Type) : Type :=
| Next (w : world)
| Stop (r : outcome A) (w : world).
Arguments Next {A} w.
Arguments Stop {A} r w.

(** [for attempt in items: body]; a function whose loop runs out
    returns [None], here [none]. *)
Fixpoint for_in {A : Type} (items : list Z) (body : Z -> world -> flow A)
    (none : A) (w : world) : outcome A * world :=
  match items with
  | [] => (Return none, w)
  | attempt :: rest =>
      match body attempt w with
      | Next w' => for_in rest body none w'
      | Stop r w' => (r, w')
      end
  end.

Fixpoint count_from (i : Z) (n : nat) : list Z :=
  match n with
  | O => []
  | S n' => i :: count_from (i + 1) n'
  end.

(** [range(n)] *)
Definition range (n : Z) : list Z := count_from 0 (Z.to_nat n).

(** The three branches of the [if]/[elif]/[else] chains that inspect an
    error message. *)
Inductive bucket : Type := RateLimit | Auth | Other.

(* ================================================================== *)
(** * The Gemini client                                                *)
(* ================================================================== *)

(** What [model.generate_content(prompt)] hands back. *)
Inductive response : Type :=
| Falsy                          (* [not response] holds *)
| NoTextAttr                     (* [hasattr(response, "text")] fails *)
| WithText (text : option string).  (* [response.text], [None] or a [str] *)

Inductive reply : Type :=
| Returns (r : response)
| Raises (msg : string).         (* an exception [e] with [str(e) = msg] *)

(** The remote model: request number, model name, prompt. *)
Definition gemini : Type := nat -> string -> string -> reply.

(* ------------------------------------------------------------------ *)
(** ** UI/gemini_ui.py                                                 *)
(* ------------------------------------------------------------------ *)

Module GeminiUI.

(* gemini_ui.py:21 *)
Definition get_prompt (job_description resume_text : string) : string :=
  Str.join_lines
    [ "";
      "You are an expert ATS Resume Optimization Agent.";
      "";
      "Your tasks:";
      "1. Compare the resume with the job description provided by the user.";
      "2. Provide the following:";
      ("   - Resume to Job match percentage (0" ++ Str.en_dash ++ "100)");
      "   - Missing technical skills / keywords";
      "   - Weak areas in the resume";
      "   - Suggested improvements";
      "   - Recommended bullet points tailored to the job requirements";
      "   - Improved professional summary";
      "   - Final optimized resume text";
      "";
      "JOB DESCRIPTION:";
      "" ]
  ++ job_description
  ++ Str.join_lines
    [ "";
      "";
      "RESUME:";
      "" ]
  ++ resume_text
  ++ Str.join_lines
    [ "";
      "";
      "Provide your analysis now.";
      "    " ].

Definition rate_limit_markers : list string :=
  ["429"; "rate_limit"; "quota"; "resource_exhausted"].

Definition auth_markers : list string :=
  ["api key"; "authentication"; "401"; "403"; "invalid_argument"].

(** Lines 61 and 69: which branch of the handler [error_msg] takes. *)
Definition classify (error_msg : string) : bucket :=
  if Str.any_in rate_limit_markers (Str.lower error_msg) then RateLimit
  else if Str.any_in auth_markers (Str.lower error_msg) then Auth
  else Other.

Definition empty_response_msg : string :=
  "Received an empty or invalid response from Gemini API.".

(** Line 67. *)
Definition rate_limit_exceeded (max_retries : Z) (error_msg : string) : exn :=
  RuntimeError ("Rate limit / quota exceeded after " ++ Str.of_int max_retries
                ++ " attempts. Error: " ++ error_msg).

(** Line 70. *)
Definition authentication_error (error_msg : string) : exn :=
  RuntimeError ("API authentication error: " ++ error_msg).

(** Line 76. *)
Definition call_failure (error_msg : string) : exn :=
  RuntimeError ("Failed to call Gemini API: " ++ error_msg).

(** Lines 58-76, the [except Exception as e] block. *)
Definition handler (max_retries attempt : Z) (error_msg : string)
    (w : world) : flow (option string) :=
  match classify error_msg with
  | RateLimit =>
      let wait_time := 2 ^ attempt in
      if attempt <? max_retries - 1 then Next (sleep wait_time w)
      else Stop (Raise (rate_limit_exceeded max_retries error_msg)) w
  | Auth => Stop (Raise (authentication_error error_msg)) w
  | Other =>
      if attempt <? max_retries - 1 then Next (sleep (1 + attempt) w)
      else Stop (Raise (call_failure error_msg)) w
  end.

(** Line 54: the text that passes the check, if any. *)
Definition checked_text (r : response) : option string :=
  match r with
  | WithText (Some text) => if Str.truthy text then Some text else None
  | _ => None
  end.

Section Call.
Variable generate_content : gemini.

(** Lines 51-76, one turn of the loop. *)
Definition attempt_body (prompt : string) (max_retries attempt : Z)
    (w : world) : flow (option string) :=
  let w' := request w in
  match generate_content (requests w) "gemini-1.5-flash" prompt with
  | Returns r =>
      match checked_text r with
      | Some text => Stop (Return (Some text)) w'
      | None => handler max_retries attempt empty_response_msg w'
      end
  | Raises error_msg => handler max_retries attempt error_msg w'
  end.

(* gemini_ui.py:46 *)
Definition analyze_with_gemini (prompt : string) (max_retries : Z)
    (w : world) : outcome (option string) * world :=
  for_in (range max_retries) (attempt_body prompt max_retries) None w.

End Call.
End GeminiUI.

(* ------------------------------------------------------------------ *)
(** ** agents/resume_accept.py                                         *)
(* ------------------------------------------------------------------ *)

Module ResumeAccept.

Definition rate_limit_markers : list string :=
  ["429"; "rate_limit"; "quota"; "RESOURCE_EXHAUSTED"].

Definition auth_markers : list string :=
  ["API key"; "authentication"; "401"; "403"; "INVALID_ARGUMENT"].

(** Lines 115 and 125: the message is matched as it stands. *)
Definition classify (error_msg : string) : bucket :=
  if Str.any_in rate_limit_markers error_msg then RateLimit
  else if Str.any_in auth_markers error_msg then Auth
  else Other.

Definition invalid_response_msg : string := "Invalid response from Gemini API".

(** Lines 111-132, the [except Exception as e] block; a bare [raise]
    hands the caught exception [e] on. *)
Definition handler (max_retries attempt : Z) (e : exn) (error_msg : string)
    (w : world) : flow (option string) :=
  match classify error_msg with
  | RateLimit =>
      let wait_time := 2 ^ attempt in
      if attempt <? max_retries - 1 then Next (sleep wait_time w)
      else Stop (Raise e) w
  | Auth => Stop (Raise e) w
  | Other => Stop (Raise e) w
  end.

Section Call.
Variable generate_content : gemini.

(** Lines 97-132, one turn of the loop. *)
Definition attempt_body (prompt : string) (max_retries attempt : Z)
    (w : world) : flow (option string) :=
  let w' := request w in
  match generate_content (requests w) "gemini-1.5-flash" prompt with
  | Returns Falsy | Returns NoTextAttr =>
      handler max_retries attempt (RuntimeError invalid_response_msg)
        invalid_response_msg w'
  | Returns (WithText text) => Stop (Return text) w'
  | Raises error_msg =>
      handler max_retries attempt (ClientError error_msg) error_msg w'
  end.

(** resume_accept.py:44, from line 69 on: [job_description] and
    [resume_text] are the two texts read by [get_multiline_input] at
    lines 56 and 63. *)
Definition analyze_resume_with_inputs (job_description resume_text : string)
    (max_retries : Z) (w : world) : outcome (option string) * world :=
  let prompt := GeminiUI.get_prompt job_description resume_text in
  for_in (range max_retries) (attempt_body prompt max_retries) None w.

End Call.
End ResumeAccept.

(* ================================================================== *)
(** * The OpenAI client                                                *)
(* ================================================================== *)

(** What [client.chat.completions.create(...)] followed by
    [response.choices[0].message.content] yields: the content, [None] or
    a [str], or an exception raised on the way. *)
Inductive chat_reply : Type :=
| Content (content : option string)
| ChatRaises (e : exn).

(** The remote model: request number, model name, prompt (the one user
    message).  The temperature is not modelled. *)
Definition openai : Type := nat -> string -> string -> chat_reply.

(* ------------------------------------------------------------------ *)
(** ** agents/resume_matcher.py                                        *)
(* ------------------------------------------------------------------ *)

Module ResumeMatcher.

(* resume_matcher.py:31 *)
Definition prompt_of (job_description resume_text : string) : string :=
  Str.join_lines
    [ "";
      "You are an expert Resume Optimization Agent.";
      "";
      "Your tasks:";
      "1. Compare the resume with the job description.";
      "2. Provide:";
      ("   - Match percentage (0" ++ Str.en_dash ++ "100)");
      "   - Missing keywords / skills";
      "   - Weak areas in the resume";
      "   - Rewrite or improve bullet points to match the job";
      "   - Suggest an improved summary section";
      "   - Provide final tailored version of the resume content";
      "";
      "JOB DESCRIPTION:";
      "" ]
  ++ job_description
  ++ Str.join_lines
    [ "";
      "";
      "RESUME:";
      "" ]
  ++ resume_text
  ++ Str.join_lines
    [ "";
      "";
      "Begin your analysis now.";
      "    " ].

(** [not s or not s.strip()] *)
Definition is_empty (s : string) : bool :=
  negb (Str.truthy s) || negb (Str.truthy (Str.strip s)).

Section Call.
Variable create : openai.

(** Lines 55-74, one turn of the loop. *)
Definition attempt_body (prompt : string) (max_retries attempt : Z)
    (w : world) : flow (option string) :=
  let w' := request w in
  match create (requests w) "gpt-3.5-turbo" prompt with
  | Content content => Stop (Return content) w'
  | ChatRaises (RateLimitError msg) =>
      let wait_time := 2 ^ attempt in
      if attempt <? max_retries - 1 then Next (sleep wait_time w')
      else Stop (Raise (RateLimitError msg)) w'
  | ChatRaises e => Stop (Raise e) w'
  end.

(* resume_matcher.py:14 *)
Definition analyze_resume (job_description resume_text : string)
    (max_retries : Z) (w : world) : outcome (option string) * world :=
  if is_empty job_description then
    (Raise (ValueError "Job description cannot be empty"), w)
  else if is_empty resume_text then
    (Raise (ValueError "Resume text cannot be empty"), w)
  else
    let prompt := prompt_of job_description resume_text in
    for_in (range max_retries) (attempt_body prompt max_retries) None w.

End Call.
End ResumeMatcher.

(* ================================================================== *)
(** * JSON values and a decoder                                        *)
(* ================================================================== *)

Module Json.

(** The Python values [json.loads] builds.  A [float] is kept as the
    text of its literal; a [dict] keeps its keys in insertion order. *)
Inductive value : Type :=
| JNull
| JBool (b : bool)
| JInt (n : Z)
| JFloat (literal : string)
| JStr (s : string)
| JList (items : list value)
| JDict (fields : list (string * value)).

(** [d[k] = v] *)
Fixpoint dict_set (k : string) (v : value) (d : list (string * value))
    : list (string * value) :=
  match d with
  | [] => [(k, v)]
  | (k', v') :: r =>
      if String.eqb k k' then (k, v) :: r else (k', v') :: dict_set k v r
  end.

(** [d.get(k)] *)
Fixpoint dict_get (k : string) (d : list (string * value)) : option value :=
  match d with
  | [] => None
  | (k', v) :: r => if String.eqb k k' then Some v else dict_get k r
  end.

(** [k in v] for a value that is a [dict]. *)
Definition has_field (k : string) (v : value) : bool :=
  match v with
  | JDict d => match dict_get k d with Some _ => true | None => false end
  | _ => false
  end.

(** A decoder for the JSON grammar that [json.loads] accepts, over the
    strings of this model: white space is space, tab, LF and CR; control
    characters inside a string are refused; a [\u] escape is decoded when
    it denotes a code point below 256 and refused otherwise, since the
    character has no counterpart here.  The position and text of a
    decoding error are not kept: [None] stands for [JSONDecodeError]. *)

Definition is_ws (c : ascii) : bool :=
  Ascii.eqb c " " || Ascii.eqb c "009" || Ascii.eqb c "010" || Ascii.eqb c "013".

Fixpoint skip_ws (s : string) : string :=
  match s with
  | String c r => if is_ws c then skip_ws r else s
  | EmptyString => s
  end.

Definition is_digit (c : ascii) : bool :=
  (48 <=? Str.code c)%N && (Str.code c <=? 57)%N.

(** The longest run of digits at the head of [s], and what follows. *)
Fixpoint span_digits (s : string) : string * string :=
  match s with
  | String c r =>
      if is_digit c then let (d, r') := span_digits r in (String c d, r')
      else (EmptyString, s)
  | EmptyString => (EmptyString, s)
  end.

Fixpoint digits_value (acc : Z) (s : string) : Z :=
  match s with
  | String c r => digits_value (10 * acc + Z.of_N (Str.code c - 48)) r
  | EmptyString => acc
  end.

Definition hex_value (c : ascii) : option N :=
  let n := Str.code c in
  if is_digit c then Some (n - 48)%N
  else if ((97 <=? n) && (n <=? 102))%N then Some (n - 87)%N
  else if ((65 <=? n) && (n <=? 70))%N then Some (n - 55)%N
  else None.

Definition hex4 (a b c d : ascii) : option N :=
  match hex_value a, hex_value b, hex_value c, hex_value d with
  | Some x, Some y, Some z, Some t => Some (((x * 16 + y) * 16 + z) * 16 + t)%N
  | _, _, _, _ => None
  end.

(** The character a one-letter escape stands for. *)
Definition unescape (c : ascii) : option ascii :=
  if Ascii.eqb c Str.dq then Some Str.dq
  else if Ascii.eqb c "\" then Some "\"%char
  else if Ascii.eqb c "/" then Some "/"%char
  else if Ascii.eqb c "b" then Some "008"%char
  else if Ascii.eqb c "f" then Some "012"%char
  else if Ascii.eqb c "n" then Some "010"%char
  else if Ascii.eqb c "r" then Some "013"%char
  else if Ascii.eqb c "t" then Some "009"%char
  else None.

Definition cons_chr (c : ascii) (r : option (string * string))
    : option (string * string) :=
  match r with
  | Some (t, rest) => Some (String c t, rest)
  | None => None
  end.

(** The string whose opening quote has just been read, and what follows
    its closing quote. *)
Fixpoint scanstring (s : string) : option (string * string) :=
  match s with
  | EmptyString => None
  | String c r =>
      if Ascii.eqb c Str.dq then Some (EmptyString, r)
      else if Ascii.eqb c "\" then
        match r with
        | EmptyString => None
        | String e r' =>
            if Ascii.eqb e "u" then
              match r' with
              | String h1 (String h2 (String h3 (String h4 r''))) =>
                  match hex4 h1 h2 h3 h4 with
                  | Some n =>
                      if (n <? 256)%N then cons_chr (ascii_of_N n) (scanstring r'')
                      else None
                  | None => None
                  end
              | _ => None
              end
            else
              match unescape e with
              | Some c' => cons_chr c' (scanstring r')
              | None => None
              end
        end
      else if (Str.code c <? 32)%N then None
      else cons_chr c (scanstring r)
  end.

(** An optional fraction [.digits]. *)
Definition scan_frac (s : string) : string * string :=
  match s with
  | String c r =>
      if Ascii.eqb c "." then
        match span_digits r with
        | (EmptyString, _) => (EmptyString, s)
        | (d, r') => (String c d, r')
        end
      else (EmptyString, s)
  | EmptyString => (EmptyString, s)
  end.

(** An optional exponent [e], sign, digits. *)
Definition scan_exp (s : string) : string * string :=
  match s with
  | String c r =>
      if Ascii.eqb c "e" || Ascii.eqb c "E" then
        let (sign, r1) :=
          match r with
          | String g r2 =>
              if Ascii.eqb g "+" || Ascii.eqb g "-"
              then (String g EmptyString, r2) else (EmptyString, r)
          | EmptyString => (EmptyString, r)
          end in
        match span_digits r1 with
        | (EmptyString, _) => (EmptyString, s)
        | (d, r') => (String c (sign ++ d), r')
        end
      else (EmptyString, s)
  | EmptyString => (EmptyString, s)
  end.

(** A number: an optional minus sign, then a single 0 or a run of
    digits that does not start with 0, then fraction and exponent. *)
Definition scan_number (s : string) : option (value * string) :=
  let (minus, s1) :=
    match s with
    | String c r => if Ascii.eqb c "-" then (true, r) else (false, s)
    | EmptyString => (false, s)
    end in
  match s1 with
  | String c r =>
      if is_digit c then
        let (int_part, r1) :=
          if Ascii.eqb c "0" then ("0", r) else span_digits s1 in
        let (frac, r2) := scan_frac r1 in
        let (expo, r3) := scan_exp r2 in
        match frac, expo with
        | EmptyString, EmptyString =>
            let n := digits_value 0 int_part in
            Some (JInt (if minus then - n else n), r3)
        | _, _ =>
            Some (JFloat ((if minus then "-" else "") ++ int_part ++ frac ++ expo), r3)
        end
      else None
  | EmptyString => None
  end.

(** [s] without the prefix [x], when it starts with it. *)
Fixpoint after (x s : string) : option string :=
  match x, s with
  | EmptyString, _ => Some s
  | String a x', String b s' => if Ascii.eqb a b then after x' s' else None
  | String _ _, EmptyString => None
  end.

(** The values that are neither strings, objects nor arrays. *)
Definition scan_atom (s : string) : option (value * string) :=
  match after "null" s with Some r => Some (JNull, r) | None =>
  match after "true" s with Some r => Some (JBool true, r) | None =>
  match after "false" s with Some r => Some (JBool false, r) | None =>
  match scan_number s with Some res => Some res | None =>
  match after "NaN" s with Some r => Some (JFloat "NaN", r) | None =>
  match after "Infinity" s with Some r => Some (JFloat "Infinity", r) | None =>
  match after "-Infinity" s with Some r => Some (JFloat "-Infinity", r) | None =>
  None
  end end end end end end end.

(** One value at the head of [s]; [members] reads the pairs of an
    object from the quote of a key on, [elements] the items of an
    array. *)
Fixpoint scan_once (fuel : nat) (s : string) {struct fuel}
    : option (value * string) :=
  match fuel with
  | O => None
  | S fuel' =>
      match s with
      | EmptyString => None
      | String c r =>
          if Ascii.eqb c Str.dq then
            match scanstring r with
            | Some (t, r') => Some (JStr t, r')
            | None => None
            end
          else if Ascii.eqb c "{" then
            match skip_ws r with
            | EmptyString => None
            | String c1 r1 =>
                if Ascii.eqb c1 "}" then Some (JDict [], r1)
                else members fuel' (String c1 r1) []
            end
          else if Ascii.eqb c "[" then
            match skip_ws r with
            | EmptyString => None
            | String c1 r1 =>
                if Ascii.eqb c1 "]" then Some (JList [], r1)
                else elements fuel' (String c1 r1) []
            end
          else scan_atom s
      end
  end
with members (fuel : nat) (s : string) (acc : list (string * value))
    {struct fuel} : option (value * string) :=
  match fuel with
  | O => None
  | S fuel' =>
      match s with
      | EmptyString => None
      | String q r =>
          if Ascii.eqb q Str.dq then
            match scanstring r with
            | None => None
            | Some (key, r1) =>
                match skip_ws r1 with
                | EmptyString => None
                | String c2 r2 =>
                    if Ascii.eqb c2 ":" then
                      match scan_once fuel' (skip_ws r2) with
                      | None => None
                      | Some (v, r3) =>
                          let acc' := dict_set key v acc in
                          match skip_ws r3 with
                          | EmptyString => None
                          | String c4 r4 =>
                              if Ascii.eqb c4 "}" then Some (JDict acc', r4)
                              else if Ascii.eqb c4 ","
                              then members fuel' (skip_ws r4) acc'
                              else None
                          end
                      end
                    else None
                end
            end
          else None
      end
  end
with elements (fuel : nat) (s : string) (acc : list value)
    {struct fuel} : option (value * string) :=
  match fuel with
  | O => None
  | S fuel' =>
      match scan_once fuel' s with
      | None => None
      | Some (v, r1) =>
          let acc' := (acc ++ [v])%list in
          match skip_ws r1 with
          | EmptyString => None
          | String c2 r2 =>
              if Ascii.eqb c2 "]" then Some (JList acc', r2)
              else if Ascii.eqb c2 ","
              then elements fuel' (skip_ws r2) acc'
              else None
          end
      end
  end.

(** [json.loads(s)] for a [str]: one value, white space around it and
    nothing else. *)
Definition loads (s : string) : option value :=
  match scan_once (2 * String.length s + 2) (skip_ws s) with
  | Some (v, r) =>
      match skip_ws r with
      | EmptyString => Some v
      | String _ _ => None
      end
  | None => None
  end.

End Json.

(* ------------------------------------------------------------------ *)
(** ** agents/resume_Parser.py                                         *)
(* ------------------------------------------------------------------ *)

Module ResumeParser.

Import Str.

(* resume_Parser.py:151 *)
Definition prompt_of (resume_text : string) : string :=
  Str.join_lines
    [ "";
      "        You are a Resume Parsing AI Agent.";
      "";
      "        Extract clean, structured JSON from the following resume text.";
      "        Do NOT add explanations. JSON only.";
      "";
      "        RESUME TEXT:";
      "        " ]
  ++ resume_text
  ++ Str.join_lines
    [ "";
      "";
      "        Return JSON in the following format:";
      "";
      "        {";
      ("            " ++ Q ++ "name" ++ Q ++ ": " ++ Q ++ Q ++ ",");
      ("            " ++ Q ++ "email" ++ Q ++ ": " ++ Q ++ Q ++ ",");
      ("            " ++ Q ++ "phone" ++ Q ++ ": " ++ Q ++ Q ++ ",");
      ("            " ++ Q ++ "location" ++ Q ++ ": " ++ Q ++ Q ++ ",");
      ("            " ++ Q ++ "summary" ++ Q ++ ": " ++ Q ++ Q ++ ",");
      ("            " ++ Q ++ "skills" ++ Q ++ ": [],");
      ("            " ++ Q ++ "experience" ++ Q ++ ": [");
      "                {";
      ("                    " ++ Q ++ "job_title" ++ Q ++ ": " ++ Q ++ Q ++ ",");
      ("                    " ++ Q ++ "company" ++ Q ++ ": " ++ Q ++ Q ++ ",");
      ("                    " ++ Q ++ "location" ++ Q ++ ": " ++ Q ++ Q ++ ",");
      ("                    " ++ Q ++ "start_date" ++ Q ++ ": " ++ Q ++ Q ++ ",");
      ("                    " ++ Q ++ "end_date" ++ Q ++ ": " ++ Q ++ Q ++ ",");
      ("                    " ++ Q ++ "description" ++ Q ++ ": []");
      "                }";
      "            ],";
      ("            " ++ Q ++ "education" ++ Q ++ ": [");
      "                {";
      ("                    " ++ Q ++ "degree" ++ Q ++ ": " ++ Q ++ Q ++ ",");
      ("                    " ++ Q ++ "school" ++ Q ++ ": " ++ Q ++ Q ++ ",");
      ("                    " ++ Q ++ "year" ++ Q ++ ": " ++ Q ++ Q);
      "                }";
      "            ],";
      ("            " ++ Q ++ "certifications" ++ Q ++ ": [],");
      ("            " ++ Q ++ "projects" ++ Q ++ ": [],");
      ("            " ++ Q ++ "ats_keywords" ++ Q ++ ": []");
      "        }";
      "        " ].

(** What [.*}] matches at the head of [s] with [re.DOTALL]: the longest
    prefix of [s] that ends with a closing brace. *)
Fixpoint upto_last_close (s : string) : option string :=
  match s with
  | EmptyString => None
  | String c r =>
      match upto_last_close r with
      | Some m => Some (String c m)
      | None => if Ascii.eqb c "}" then Some (String c EmptyString) else None
      end
  end.

(** [re.search(r"{.*}", text, re.DOTALL)]: the match at the leftmost
    position where there is one, [group(0)] of it. *)
Fixpoint re_search (text : string) : option string :=
  match text with
  | EmptyString => None
  | String c r =>
      match (if Ascii.eqb c "{" then upto_last_close r else None) with
      | Some m => Some (String c m)
      | None => re_search r
      end
  end.

(* resume_Parser.py:223 *)
Definition _extract_json (text : string) : outcome string :=
  match re_search text with
  | Some m => Return m
  | None => Raise (ValueError "No valid JSON found in LLM response.")
  end.

(** [sub] runs from the first opening brace of [text] through its last
    closing brace. *)
Definition brace_span (text sub : string) : Prop :=
  exists pre mid post,
    text = pre ++ sub ++ post /\
    sub = "{" ++ mid ++ "}" /\
    Str.contains "{" pre = false /\
    Str.contains "}" post = false.

Section Parse.
(** [json.loads] on a [str]; [None] when it raises [JSONDecodeError]. *)
Variable json_loads : string -> option Json.value.

(** Lines 203-209: the reply is decoded as it stands, and on failure
    the span found by [_extract_json] is decoded instead. *)
Definition extract (parsed_output : string) : outcome Json.value :=
  match json_loads parsed_output with
  | Some v => Return v
  | None =>
      match _extract_json parsed_output with
      | Return cleaned_json =>
          match json_loads cleaned_json with
          | Some v => Return v
          | None => Raise JSONDecodeError
          end
      | Raise e => Raise e
      end
  end.

Variable create : openai.

(** Lines 194-221, one turn of the loop.  [json.loads(None)] raises a
    [TypeError], which the inner [except] does not catch. *)
Definition attempt_body (model prompt : string) (max_retries attempt : Z)
    (w : world) : flow Json.value :=
  let w' := request w in
  match create (requests w) model prompt with
  | Content (Some parsed_output) => Stop (extract parsed_output) w'
  | Content None =>
      Stop (Raise (TypeError
        "the JSON object must be str, bytes or bytearray, not NoneType")) w'
  | ChatRaises (RateLimitError msg) =>
      let wait_time := 2 ^ attempt in
      if attempt <? max_retries - 1 then Next (sleep wait_time w')
      else Stop (Raise (RateLimitError msg)) w'
  | ChatRaises e => Stop (Raise e) w'
  end.

(** resume_Parser.py:142; [model] is [self.model]. *)
Definition parse_resume (model resume_text : string) (max_retries : Z)
    (w : world) : outcome Json.value * world :=
  for_in (range max_retries)
    (attempt_body model (prompt_of resume_text) max_retries) Json.JNull w.

End Parse.
End ResumeParser.

(* ================================================================== *)
(** * Stand-ins for the remote models                                  *)
(* ================================================================== *)

Module Fake.

(** A Gemini model that fails every request with the same message. *)
Definition always_raises (msg : string) : gemini :=
  fun _ _ _ => Raises msg.

(** A Gemini model that answers every request with the same response. *)
Definition always_returns (r : response) : gemini :=
  fun _ _ _ => Returns r.

(** A Gemini model that plays a script, then repeats [last]. *)
Definition scripted (script : list reply) (last : reply) : gemini :=
  fun n _ _ => nth n script last.

(** An OpenAI model that gives the same reply to every request. *)
Definition chat_always (r : chat_reply) : openai :=
  fun _ _ _ => r.

(** The reply of the specification's examples: an object with the one
    field [name]. *)
Definition jane : string :=
  "{" ++ Str.Q ++ "name" ++ Str.Q ++ ":" ++ Str.Q ++ "Jane" ++ Str.Q ++ "}".

Definition jane_with_prose : string :=
  "Here is the result: " ++ jane ++ " Thanks!".

End Fake.

(* ================================================================== *)
(** * The keyboard and the file system                                 *)
(* ================================================================== *)

Module Console.

(** What successive calls of [input()] meet: a line, without its line
    feed, or an interrupt from the keyboard.  When nothing is left,
    [input()] raises [EOFError]. *)
Inductive key : Type :=
| Line (text : string)
| CtrlC.

Definition stdin : Type := list key.

(** Exceptions that the functions below let through and that [exn] does
    not list. *)
Inductive escape : Type :=
| EOFError
| KeyboardInterrupt
| FileNotFoundError (msg : string).

Inductive result (A : Type) : Type :=
| Done (r : outcome A)
| Escaped (x : escape).
Arguments Done {A} r.
Arguments Escaped {A} x.

(** [line.strip() == ""] *)
Definition is_blank_line (line : string) : bool :=
  String.eqb (Str.strip line) "".

(** The [else] branch of the reading loops: the line is appended. *)
Definition kept (line : string) : bool := negb (is_blank_line line).

(** [s.endswith(x)] *)
Fixpoint endswith (x s : string) : bool :=
  String.eqb x s ||
  match s with
  | EmptyString => false
  | String _ r => endswith x r
  end.

Fixpoint insert (x : string) (l : list string) : list string :=
  match l with
  | [] => [x]
  | y :: r => if String.leb x y then x :: l else y :: insert x r
  end.

(** [a <= b] on [str]: the order of the code points. *)
Definition le (a b : string) : Prop := String.leb a b = true.

(** [sorted(l)] for a list of [str]: ascending by code points.  Equal
    strings are the same string, so the order among them is immaterial. *)
Fixpoint sorted (l : list string) : list string :=
  match l with
  | [] => []
  | x :: r => insert x (sorted r)
  end.

(** [os.path.join(a, b)] on POSIX. *)
Definition path_join (a b : string) : string :=
  if Str.startswith "/" b then b
  else if negb (Str.truthy a) || endswith "/" a then a ++ b
  else a ++ "/" ++ b.

(** The part of the file system the code looks at: [os.path.exists],
    [os.listdir] ([None] when it raises) and the reading of a whole
    file as text (its content, or [str(e)] of the exception raised by
    [open] or [read]). *)
Record filesystem : Type := mkFs {
  exists_ : string -> bool;
  listdir : string -> option (list string);
  read_text : string -> string + string
}.

End Console.

(* ------------------------------------------------------------------ *)
(** ** agents/resume_accept.py, the interactive part                   *)
(* ------------------------------------------------------------------ *)

Module ResumeAcceptInput.
Import Console.

(** Lines 24-36, the [while True] loop: the lines kept so far and the
    count of blank lines in a row.  [None] when an interrupt ends it. *)
Fixpoint read_loop (keys : stdin) (lines : list string)
    (empty_line_count : Z) : option (list string) * stdin :=
  match keys with
  | [] => (Some lines, [])
  | CtrlC :: rest => (None, rest)
  | Line line :: rest =>
      if is_blank_line line then
        if empty_line_count + 1 >=? 2 then (Some lines, rest)
        else read_loop rest lines (empty_line_count + 1)
      else read_loop rest (lines ++ [line])%list 0
  end.

(* resume_accept.py:13 *)
Definition get_multiline_input (keys : stdin) : result string * stdin :=
  match read_loop keys [] 0 with
  | (None, rest) => (Escaped KeyboardInterrupt, rest)
  | (Some lines, rest) =>
      let text := Str.strip (Str.join_lines lines) in
      if negb (Str.truthy text)
      then (Done (Raise (ValueError "Input cannot be empty")), rest)
      else (Done (Return text), rest)
  end.

(** [except ValueError as e: raise ValueError(f"{label}{str(e)}")] *)
Definition relabel (label : string) (e : exn) : exn :=
  match e with
  | ValueError msg => ValueError (label ++ msg)
  | _ => e
  end.

Section Call.
Variable generate_content : gemini.

(** resume_accept.py:44, the whole function: the two texts are read
    from the keyboard, then the model is called. *)
Definition analyze_resume_with_inputs_from (keys : stdin) (max_retries : Z)
    (w : world) : result (option string) * stdin * world :=
  match get_multiline_input keys with
  | (Escaped x, rest) => (Escaped x, rest, w)
  | (Done (Raise e), rest) =>
      (Done (Raise (relabel "Job description error: " e)), rest, w)
  | (Done (Return job_description), rest) =>
      match get_multiline_input rest with
      | (Escaped x, rest') => (Escaped x, rest', w)
      | (Done (Raise e), rest') =>
          (Done (Raise (relabel "Resume text error: " e)), rest', w)
      | (Done (Return resume_text), rest') =>
          let (r, w') :=
            ResumeAccept.analyze_resume_with_inputs generate_content
              job_description resume_text max_retries w in
          (Done r, rest', w')
      end
  end.

End Call.
End ResumeAcceptInput.

(* ------------------------------------------------------------------ *)
(** ** agents/resume_Parser.py, the methods around [parse_resume]      *)
(* ------------------------------------------------------------------ *)

Module ResumeStore.
Import Console.

(** Lines 65-71, the [while empty_lines < 2] loop.  An [EOFError] is
    not handled here; an interrupt becomes a [ValueError] (line 78). *)
Fixpoint read_loop (keys : stdin) (lines : list string) (empty_lines : Z)
    : result (list string) * stdin :=
  if empty_lines <? 2 then
    match keys with
    | [] => (Escaped EOFError, [])
    | CtrlC :: rest =>
        (Done (Raise (ValueError "Resume input cancelled by user")), rest)
    | Line line :: rest =>
        if is_blank_line line then read_loop rest lines (empty_lines + 1)
        else read_loop rest (lines ++ [line])%list 0
    end
  else (Done (Return lines), keys).

(* resume_Parser.py:48 *)
Definition get_resume_from_user_input (keys : stdin)
    : result string * stdin :=
  match read_loop keys [] 0 with
  | (Done (Return lines), rest) =>
      let resume_text := Str.strip (Str.join_lines lines) in
      if negb (Str.truthy resume_text)
      then (Done (Raise (ValueError "Resume content cannot be empty")), rest)
      else (Done (Return resume_text), rest)
  | (Done (Raise e), rest) => (Done (Raise e), rest)
  | (Escaped x, rest) => (Escaped x, rest)
  end.

Section Files.
(** [RESUME_DIR] (line 16) and the file system. *)
Variable RESUME_DIR : string.
Variable fs : filesystem.

(* resume_Parser.py:31 *)
Definition get_resume_from_file (filepath : string) : result string :=
  if negb (exists_ fs filepath) then
    Escaped (FileNotFoundError ("Resume file not found: " ++ filepath))
  else
    match read_text fs filepath with
    | inl content => Done (Return content)
    | inr err => Done (Raise (RuntimeError ("Error reading resume file: " ++ err)))
    end.

(** [f.endswith(('.txt', '.pdf'))] *)
Definition is_resume_file (f : string) : bool :=
  endswith ".txt" f || endswith ".pdf" f.

(* resume_Parser.py:97 *)
Definition list_saved_resumes : list string :=
  match listdir fs RESUME_DIR with
  | Some files => sorted (filter is_resume_file files)
  | None => []
  end.

(** [int(s)] for a [str]: the number, or [str(e)] of its [ValueError]. *)
Variable int_of : string -> Z + string.

(* resume_Parser.py:111 *)
Definition get_resume_from_list (keys : stdin) : result string * stdin :=
  let saved_resumes := list_saved_resumes in
  match saved_resumes with
  | [] => (Done (Raise (ValueError ("No saved resumes found in " ++ RESUME_DIR))),
           keys)
  | _ :: _ =>
      match keys with
      | [] => (Escaped EOFError, [])
      | CtrlC :: rest => (Escaped KeyboardInterrupt, rest)
      | Line typed :: rest =>
          match int_of typed with
          | inr err => (Done (Raise (ValueError ("Invalid input: " ++ err))), rest)
          | inl choice =>
              if choice =? 0 then (Done (Return ""), rest)
              else if (1 <=? choice) && (choice <=? Z.of_nat (List.length saved_resumes))
              then
                let filepath :=
                  path_join RESUME_DIR
                    (nth (Z.to_nat (choice - 1)) saved_resumes "") in
                (get_resume_from_file filepath, rest)
              else
                (Done (Raise (ValueError ("Invalid input: " ++ "Invalid selection"))),
                 rest)
          end
      end
  end.

End Files.
End ResumeStore.

(** Stand-ins for the file system and for [int]. *)
Module FakeFs.
Import Console.

(** A directory [dir] holding the files [files], name and content. *)
Definition lookup (name : string) (files : list (string * string))
    : option string :=
  match find (fun p => String.eqb (fst p) name) files with
  | Some p => Some (snd p)
  | None => None
  end.

Definition one_dir (dir : string) (files : list (string * string))
    : filesystem :=
  mkFs
    (fun path =>
       existsb (fun p => String.eqb path (path_join dir (fst p))) files)
    (fun path => if String.eqb path dir then Some (map fst files) else None)
    (fun path =>
       match find (fun p => String.eqb path (path_join dir (fst p))) files with
       | Some p => inl (snd p)
       | None => inr "No such file or directory"
       end).

(** [int] on the digits 0 to 9 alone; anything else is refused. *)
Definition digit_int (s : string) : Z + string :=
  if String.eqb s "0" then inl 0
  else if String.eqb s "1" then inl 1
  else if String.eqb s "2" then inl 2
  else if String.eqb s "3" then inl 3
  else inr ("invalid literal for int() with base 10: '" ++ s ++ "'").

End FakeFs.

(** The ways a run of [analyze_with_gemini] that made an attempt can
    end: lines 56, 67, 70 and 76 of gemini_ui.py. *)
Module GeminiEnds.
Import GeminiUI.

Definition terminal (max_retries : Z) (r : outcome (option string)) : Prop :=
  (exists text, r = Return (Some text) /\ text <> "")
  \/ (exists msg, r = Raise (rate_limit_exceeded max_retries msg))
  \/ (exists msg, r = Raise (authentication_error msg))
  \/ (exists msg, r = Raise (call_failure msg)).

Section Request.
Variable generate_content : gemini.
Variable prompt : string.

(** What lines 52-76 make of the reply to request number [c]: the text
    that passes the check of line 54, if any; *)
Definition text_of (c : nat) : option string :=
  match generate_content c "gemini-1.5-flash" prompt with
  | Returns r => checked_text r
  | Raises _ => None
  end.

(** the message the [except] block sees when there is no such text; *)
Definition error_msg_of (c : nat) : string :=
  match generate_content c "gemini-1.5-flash" prompt with
  | Returns _ => empty_response_msg
  | Raises error_msg => error_msg
  end.

(** the sleep that follows when the request was attempt [attempt] and
    the call goes on; *)
Definition wait_of (c : nat) (attempt : Z) : Z :=
  match classify (error_msg_of c) with
  | RateLimit => 2 ^ attempt
  | _ => 1 + attempt
  end.

(** what the call ends with when it ends at this request. *)
Definition end_of (max_retries : Z) (c : nat) : outcome (option string) :=
  match text_of c with
  | Some text => Return (Some text)
  | None =>
      match classify (error_msg_of c) with
      | RateLimit => Raise (rate_limit_exceeded max_retries (error_msg_of c))
      | Auth => Raise (authentication_error (error_msg_of c))
      | Other => Raise (call_failure (error_msg_of c))
      end
  end.

(** The request gave no text and its error is not of the
    authentication branch: the call goes on if attempts are left. *)
Definition retried (c : nat) : Prop :=
  text_of c = None /\ classify (error_msg_of c) <> Auth.

End Request.
End GeminiEnds.

(** More stand-ins for the remote models. *)
Module FakeChat.

(** An OpenAI model that plays a script, then repeats [last]. *)
Definition scripted (script : list chat_reply) (last : chat_reply) : openai :=
  fun n _ _ => nth n script last.

End FakeChat.

(* ================================================================== *)
(** * Facts about strings                                              *)
(* ================================================================== *)

Section StrFacts.
Import Str.

Lemma append_assoc (a b c : string) : (a ++ b) ++ c = a ++ (b ++ c).
Proof. induction a as [|x a IH]; simpl; [reflexivity | now rewrite IH]. Qed.

Lemma append_empty_r (a : string) : a ++ "" = a.
Proof. induction a as [|x a IH]; simpl; [reflexivity | now rewrite IH]. Qed.

Lemma startswith_spec (x s : string) :
  startswith x s = true <-> exists post, s = x ++ post.
Proof.
  revert s; induction x as [|a x IH]; intros s; simpl.
  - split; [intros _; now exists s | reflexivity].
  - destruct s as [|b s].
    + split; [discriminate | intros [post H]; discriminate].
    + rewrite andb_true_iff, Ascii.eqb_eq, IH. split.
      * intros [-> [post ->]]. now exists post.
      * intros [post H]. injection H as -> ->. split; [reflexivity | now exists post].
Qed.

Lemma contains_spec (x s : string) : contains x s = true <-> occurs x s.
Proof.
  unfold occurs. induction s as [|c s IH].
  - simpl. rewrite orb_false_r, startswith_spec. split.
    + intros [post H]. now exists "", post.
    + intros [pre [post H]]. destruct pre; [now exists post | discriminate].
  - cbn [contains]. rewrite orb_true_iff, startswith_spec, IH. split.
    + intros [[post H] | [pre [post H]]].
      * now exists "", post.
      * exists (String c pre), post. simpl. now rewrite H.
    + intros [pre [post H]]. destruct pre as [|c' pre].
      * left. now exists post.
      * right. injection H as _ H. now exists pre, post.
Qed.

Lemma any_in_spec (xs : list string) (s : string) :
  any_in xs s = true <-> mentions xs s.
Proof.
  unfold any_in, mentions. rewrite existsb_exists.
  split; intros [x [Hx H]]; exists x; split; trivial; now apply contains_spec.
Qed.

Lemma any_in_false (xs : list string) (s : string) :
  ~ mentions xs s -> any_in xs s = false.
Proof.
  intros H. destruct (any_in xs s) eqn:E; [|reflexivity].
  exfalso. apply H. now apply any_in_spec.
Qed.

Lemma lower_chr_idem (c : ascii) : lower_chr (lower_chr c) = lower_chr c.
Proof. destruct c as [[] [] [] [] [] [] [] []]; reflexivity. Qed.

Lemma lower_append (a b : string) : lower (a ++ b) = lower a ++ lower b.
Proof. induction a as [|x a IH]; simpl; [reflexivity | now rewrite IH]. Qed.

Lemma recase_chr_lower (a b : ascii) :
  recase_chr a b -> lower_chr a = lower_chr b.
Proof.
  intros [-> | [-> | ->]]; [reflexivity | |]; now rewrite lower_chr_idem.
Qed.

Lemma recase_lower (s t : string) : recase s t -> lower s = lower t.
Proof.
  induction 1 as [|a b s t Hc _ IH]; simpl; [reflexivity|].
  now rewrite (recase_chr_lower a b Hc), IH.
Qed.

(** A marker written in small letters that occurs in a message occurs
    in the lowered message as well. *)
Lemma occurs_lower (x s : string) :
  lower x = x -> occurs x s -> occurs x (lower s).
Proof.
  intros Hx [pre [post ->]]. exists (lower pre), (lower post).
  now rewrite !lower_append, Hx.
Qed.

Lemma mentions_lower (xs : list string) (s : string) :
  (forall x, In x xs -> lower x = x) -> mentions xs s -> mentions xs (lower s).
Proof.
  intros Hxs [x [Hin Ho]]. exists x. split; [assumption|].
  apply occurs_lower; auto.
Qed.

Lemma blank_nil : blank "".
Proof. intros c []. Qed.

Lemma blank_cons (c : ascii) (s : string) :
  blank (String c s) <-> isspace c = true /\ blank s.
Proof.
  unfold blank; simpl. split.
  - intros H. split; [apply H; now left | intros d Hd; apply H; now right].
  - intros [Hc Hs] d [<- | Hd]; auto.
Qed.

Lemma lstrip_blank (s : string) : blank (lstrip s) <-> blank s.
Proof.
  induction s as [|c s IH]; simpl; [tauto|].
  destruct (isspace c) eqn:E.
  - rewrite IH, blank_cons. tauto.
  - tauto.
Qed.

Lemma rstrip_empty (s : string) : rstrip s = "" <-> blank s.
Proof.
  induction s as [|c s IH]; simpl.
  - split; [intros _; apply blank_nil | reflexivity].
  - rewrite blank_cons, <- IH. destruct (rstrip s) as [|d r].
    + destruct (isspace c); split; try tauto; try discriminate.
      intros [H _]; discriminate.
    + split; [discriminate | intros [_ H]; discriminate].
Qed.

Lemma strip_empty (s : string) : strip s = "" <-> blank s.
Proof. unfold strip. now rewrite rstrip_empty, lstrip_blank. Qed.

End StrFacts.

(* ================================================================== *)
(** * Facts about the loop and the classifiers                         *)
(* ================================================================== *)

Lemma sum_app (l l' : list Z) :
  fold_right Z.add 0 (l ++ l')%list
  = fold_right Z.add 0 l + fold_right Z.add 0 l'.
Proof. induction l as [|x l IH]; simpl; lia. Qed.

Lemma total_backoff_sleep (t : Z) (w : world) :
  total_backoff (sleep t w) = total_backoff w + t.
Proof.
  unfold total_backoff, sleep; simpl. rewrite sum_app. simpl. lia.
Qed.

Lemma total_backoff_request (w : world) :
  total_backoff (request w) = total_backoff w.
Proof. reflexivity. Qed.

Lemma for_in_next {A : Type} (i : Z) (rest : list Z)
    (body : Z -> world -> flow A) (none : A) (w w' : world) :
  body i w = Next w' ->
  for_in (i :: rest) body none w = for_in rest body none w'.
Proof. intros H; simpl; now rewrite H. Qed.

Lemma for_in_stop {A : Type} (i : Z) (rest : list Z)
    (body : Z -> world -> flow A) (none : A) (w w' : world) (r : outcome A) :
  body i w = Stop r w' ->
  for_in (i :: rest) body none w = (r, w').
Proof. intros H; simpl; now rewrite H. Qed.

Lemma range_nonpositive (n : Z) : n <= 0 -> range n = [].
Proof.
  intros H. unfold range. replace (Z.to_nat n) with 0%nat by lia. reflexivity.
Qed.

Lemma range_positive (n : Z) :
  1 <= n -> range n = count_from 0 (S (Z.to_nat (n - 1))).
Proof.
  intros H. unfold range. f_equal. lia.
Qed.

Module GeminiFacts.
Import Str GeminiUI.

Lemma classify_rate_limit (msg : string) :
  mentions rate_limit_markers (lower msg) -> classify msg = RateLimit.
Proof.
  intros H. unfold classify. apply any_in_spec in H. now rewrite H.
Qed.

Lemma classify_auth (msg : string) :
  ~ mentions rate_limit_markers (lower msg) ->
  mentions auth_markers (lower msg) -> classify msg = Auth.
Proof.
  intros Hr Ha. unfold classify.
  rewrite (any_in_false _ _ Hr). apply any_in_spec in Ha. now rewrite Ha.
Qed.

Lemma classify_other (msg : string) :
  ~ mentions rate_limit_markers (lower msg) ->
  ~ mentions auth_markers (lower msg) -> classify msg = Other.
Proof.
  intros Hr Ha. unfold classify.
  now rewrite (any_in_false _ _ Hr), (any_in_false _ _ Ha).
Qed.

Lemma markers_are_lower (x : string) :
  In x rate_limit_markers \/ In x auth_markers -> lower x = x.
Proof.
  unfold rate_limit_markers, auth_markers; simpl.
  intros [H | H]; repeat (destruct H as [<- | H]; [reflexivity|]); destruct H.
Qed.

Section Runs.
Variable generate_content : gemini.
Variable prompt : string.
Variable max_retries : Z.

(** When every request fails with a rate-limit message, the turns from
    [i] on sleep [2 ^ i], [2 ^ (i + 1)], ... and the last one raises. *)
Lemma rate_limited_run (errs : nat -> string) :
  (forall k, generate_content k "gemini-1.5-flash" prompt = Raises (errs k)) ->
  (forall k, classify (errs k) = RateLimit) ->
  forall (n : nat) (i : Z) (w : world),
    i + Z.of_nat (S n) = max_retries ->
    for_in (count_from i (S n))
      (attempt_body generate_content prompt max_retries) None w
    = (Raise (rate_limit_exceeded max_retries (errs (requests w + n)%nat)),
       mkWorld (requests w + S n)
               (slept w ++ map (Z.pow 2) (count_from i n))%list).
Proof.
  intros Hg Hc. induction n as [|n IH]; intros i w Hi.
  - apply for_in_stop. unfold attempt_body. rewrite Hg.
    unfold handler. rewrite Hc.
    replace (i <? max_retries - 1) with false by (symmetry; apply Z.ltb_ge; lia).
    unfold request. simpl. now rewrite Nat.add_0_r, Nat.add_1_r, app_nil_r.
  - change (count_from i (S (S n))) with (i :: count_from (i + 1) (S n)).
    rewrite (for_in_next i _ _ _ w (sleep (2 ^ i) (request w))).
    + rewrite IH by lia. simpl. f_equal; [do 3 f_equal; lia|].
      f_equal; [lia|]. now rewrite <- app_assoc.
    + unfold attempt_body. rewrite Hg. unfold handler. rewrite Hc.
      replace (i <? max_retries - 1) with true by (symmetry; apply Z.ltb_lt; lia).
      reflexivity.
Qed.

(** The same for messages of the third branch: the sleeps are
    [1 + i], [1 + (i + 1)], ... *)
Lemma transient_run (errs : nat -> string) :
  (forall k, generate_content k "gemini-1.5-flash" prompt = Raises (errs k)) ->
  (forall k, classify (errs k) = Other) ->
  forall (n : nat) (i : Z) (w : world),
    i + Z.of_nat (S n) = max_retries ->
    for_in (count_from i (S n))
      (attempt_body generate_content prompt max_retries) None w
    = (Raise (call_failure (errs (requests w + n)%nat)),
       mkWorld (requests w + S n)
               (slept w ++ map (Z.add 1) (count_from i n))%list).
Proof.
  intros Hg Hc. induction n as [|n IH]; intros i w Hi.
  - apply for_in_stop. unfold attempt_body. rewrite Hg.
    unfold handler. rewrite Hc.
    replace (i <? max_retries - 1) with false by (symmetry; apply Z.ltb_ge; lia).
    unfold request. simpl. now rewrite Nat.add_0_r, Nat.add_1_r, app_nil_r.
  - change (count_from i (S (S n))) with (i :: count_from (i + 1) (S n)).
    rewrite (for_in_next i _ _ _ w (sleep (1 + i) (request w))).
    + rewrite IH by lia. simpl. f_equal; [do 3 f_equal; lia|].
      f_equal; [lia|]. now rewrite <- app_assoc.
    + unfold attempt_body. rewrite Hg. unfold handler. rewrite Hc.
      replace (i <? max_retries - 1) with true by (symmetry; apply Z.ltb_lt; lia).
      reflexivity.
Qed.

End Runs.
End GeminiFacts.

Module AcceptFacts.
Import Str ResumeAccept.

Lemma accept_classify_rate_limit (msg : string) :
  mentions rate_limit_markers msg -> classify msg = RateLimit.
Proof.
  intros H. unfold classify. apply any_in_spec in H. now rewrite H.
Qed.

Lemma accept_classify_auth (msg : string) :
  ~ mentions rate_limit_markers msg ->
  mentions auth_markers msg -> classify msg = Auth.
Proof.
  intros Hr Ha. unfold classify.
  rewrite (any_in_false _ _ Hr). apply any_in_spec in Ha. now rewrite Ha.
Qed.

Lemma accept_classify_other (msg : string) :
  ~ mentions rate_limit_markers msg ->
  ~ mentions auth_markers msg -> classify msg = Other.
Proof.
  intros Hr Ha. unfold classify.
  now rewrite (any_in_false _ _ Hr), (any_in_false _ _ Ha).
Qed.

End AcceptFacts.

(** With a budget of at least one attempt the loop starts with
    attempt 0. *)
Lemma range_head (n : Z) :
  1 <= n -> exists rest, range n = 0 :: rest.
Proof.
  intros H. rewrite (range_positive n H). simpl. eauto.
Qed.

(** A run of [analyze_with_gemini] whose every request fails with a
    message of the third branch: one request per attempt, a sleep of
    [1 + i] seconds after each attempt but the last, then the
    [call_failure] error built from the last message. *)
Lemma analyze_with_gemini_transient (generate_content : gemini)
    (prompt : string) (max_retries : Z) (errs : nat -> string) (w : world) :
  1 <= max_retries ->
  (forall k, generate_content k "gemini-1.5-flash" prompt = Raises (errs k)) ->
  (forall k, GeminiUI.classify (errs k) = Other) ->
  GeminiUI.analyze_with_gemini generate_content prompt max_retries w
  = (Raise (GeminiUI.call_failure
              (errs (requests w + Z.to_nat (max_retries - 1))%nat)),
     mkWorld (requests w + Z.to_nat max_retries)
             (slept w ++ map (Z.add 1) (range (max_retries - 1)))%list).
Proof.
  intros Hn Hg Hc. unfold GeminiUI.analyze_with_gemini.
  rewrite (range_positive _ Hn).
  rewrite (GeminiFacts.transient_run generate_content prompt max_retries errs Hg Hc)
    by lia.
  unfold range. do 2 f_equal. lia.
Qed.

(** The same for rate-limit messages, for any budget. *)
Lemma analyze_with_gemini_rate_limited (generate_content : gemini)
    (prompt : string) (max_retries : Z) (errs : nat -> string) (w : world) :
  1 <= max_retries ->
  (forall k, generate_content k "gemini-1.5-flash" prompt = Raises (errs k)) ->
  (forall k, GeminiUI.classify (errs k) = RateLimit) ->
  GeminiUI.analyze_with_gemini generate_content prompt max_retries w
  = (Raise (GeminiUI.rate_limit_exceeded max_retries
              (errs (requests w + Z.to_nat (max_retries - 1))%nat)),
     mkWorld (requests w + Z.to_nat max_retries)
             (slept w ++ map (Z.pow 2) (range (max_retries - 1)))%list).
Proof.
  intros Hn Hg Hc. unfold GeminiUI.analyze_with_gemini.
  rewrite (range_positive _ Hn).
  rewrite (GeminiFacts.rate_limited_run generate_content prompt max_retries errs Hg Hc)
    by lia.
  unfold range. do 2 f_equal. lia.
Qed.

(** A message that contains a marker of [analyze_with_gemini] as it is
    written takes the branch of that marker's list. *)
Lemma gemini_ui_literal_rate_marker (msg : string) :
  Str.mentions GeminiUI.rate_limit_markers msg ->
  GeminiUI.classify msg = RateLimit.
Proof.
  intros H. apply GeminiFacts.classify_rate_limit, mentions_lower; trivial.
  intros x Hx. apply GeminiFacts.markers_are_lower. now left.
Qed.

(* ================================================================== *)
(** * The retrying call                                                *)
(* ================================================================== *)

(** Two rate-limit failures, then a text: the text is returned after
    three requests and sleeps of one and two seconds. *)
Example two_rate_limits_then_success :
  GeminiUI.analyze_with_gemini
    (Fake.scripted [Raises "429"; Raises "quota exceeded"]
                   (Returns (WithText (Some "analysis"))))
    "prompt" 3 start
  = (Return (Some "analysis"), mkWorld 3 [1; 2]).
Proof. reflexivity. Qed.

(** C1.  A model that fails every request with a message containing a
    rate-limit marker (matched, as the code does, in the lowered
    message), called with [max_retries = 3]: [analyze_with_gemini]
    raises the rate-limit error, built from the budget 3 and the message
    of the third request, after exactly three requests; it has slept
    [2 ^ 0] and [2 ^ 1] seconds, after the first and the second attempt,
    three seconds in all. *)
Theorem rate_limit_raises_after_three_attempts
    (generate_content : gemini) (prompt : string) (errs : nat -> string)
    (w : world) :
  (forall k, generate_content k "gemini-1.5-flash" prompt = Raises (errs k)) ->
  (forall k, Str.mentions GeminiUI.rate_limit_markers (Str.lower (errs k))) ->
  GeminiUI.analyze_with_gemini generate_content prompt 3 w
  = (Raise (GeminiUI.rate_limit_exceeded 3 (errs (requests w + 2)%nat)),
     mkWorld (requests w + 3) (slept w ++ [2 ^ 0; 2 ^ 1])%list)
  /\ total_backoff
       (snd (GeminiUI.analyze_with_gemini generate_content prompt 3 w))
     = total_backoff w + 3.
Proof.
  intros Hg Hm.
  assert (Hc : forall k, GeminiUI.classify (errs k) = RateLimit)
    by (intros k; apply GeminiFacts.classify_rate_limit, Hm).
  assert (E := analyze_with_gemini_rate_limited generate_content prompt 3
                 errs w ltac:(lia) Hg Hc).
  change (Z.to_nat (3 - 1)) with 2%nat in E.
  change (Z.to_nat 3) with 3%nat in E.
  change (map (Z.pow 2) (range (3 - 1))) with [2 ^ 0; 2 ^ 1] in E.
  split; [exact E|].
  rewrite E. unfold total_backoff. cbn [snd slept]. rewrite sum_app.
  reflexivity.
Qed.

Lemma rate_limit_raises_after_three_attempts_witness :
  GeminiUI.analyze_with_gemini (Fake.always_raises "429 Too Many Requests")
    "prompt" 3 start
  = (Raise (RuntimeError
       "Rate limit / quota exceeded after 3 attempts. Error: 429 Too Many Requests"),
     mkWorld 3 [1; 2]).
Proof.
  refine (proj1 (rate_limit_raises_after_three_attempts
                   (Fake.always_raises "429 Too Many Requests") "prompt"
                   (fun _ => "429 Too Many Requests") start _ _)).
  - intros k. reflexivity.
  - intros k. exists "429". split; [simpl; auto|].
    exists "", " too many requests". reflexivity.
Defined.

(** C2, as the code has it.  With a budget of at least one attempt, when
    the first request fails with a message that contains an
    authentication marker and no rate-limit marker (each function
    matching its own markers its own way: [analyze_with_gemini] in the
    lowered message, [analyze_resume_with_inputs] in the message as it
    stands), the call raises at once: [analyze_with_gemini] its
    authentication error, [analyze_resume_with_inputs] the exception it
    caught.  One request has been made and nothing has been slept. *)
Theorem auth_error_raises_at_once
    (generate_content : gemini) (prompt job_description resume_text : string)
    (max_retries : Z) (w : world) (msg : string) :
  1 <= max_retries ->
  (forall p, generate_content (requests w) "gemini-1.5-flash" p = Raises msg) ->
  (Str.mentions GeminiUI.auth_markers (Str.lower msg) ->
   ~ Str.mentions GeminiUI.rate_limit_markers (Str.lower msg) ->
   GeminiUI.analyze_with_gemini generate_content prompt max_retries w
   = (Raise (GeminiUI.authentication_error msg), request w))
  /\
  (Str.mentions ResumeAccept.auth_markers msg ->
   ~ Str.mentions ResumeAccept.rate_limit_markers msg ->
   ResumeAccept.analyze_resume_with_inputs generate_content
     job_description resume_text max_retries w
   = (Raise (ClientError msg), request w)).
Proof.
  intros Hn Hg. destruct (range_head max_retries Hn) as [rest Hr]. split.
  - intros Ha Hnr. unfold GeminiUI.analyze_with_gemini. rewrite Hr.
    apply for_in_stop. unfold GeminiUI.attempt_body. rewrite Hg.
    unfold GeminiUI.handler.
    now rewrite (GeminiFacts.classify_auth msg Hnr Ha).
  - intros Ha Hnr. unfold ResumeAccept.analyze_resume_with_inputs. rewrite Hr.
    apply for_in_stop. unfold ResumeAccept.attempt_body. rewrite Hg.
    unfold ResumeAccept.handler.
    now rewrite (AcceptFacts.accept_classify_auth msg Hnr Ha).
Qed.

(** Decides [~ mentions xs s] for a concrete list and string. *)
Ltac no_marker :=
  let H := fresh in
  intros H; apply any_in_spec in H; discriminate H.

(** Proves [mentions xs s] for a concrete list and string. *)
Ltac has_marker := apply any_in_spec; reflexivity.

Lemma auth_error_raises_at_once_witness :
  GeminiUI.analyze_with_gemini (Fake.always_raises "401 Unauthorized")
    "prompt" 3 start
  = (Raise (RuntimeError "API authentication error: 401 Unauthorized"),
     mkWorld 1 [])
  /\
  ResumeAccept.analyze_resume_with_inputs
    (Fake.always_raises "401 Unauthorized") "job" "resume" 3 start
  = (Raise (ClientError "401 Unauthorized"), mkWorld 1 []).
Proof.
  destruct (auth_error_raises_at_once (Fake.always_raises "401 Unauthorized")
              "prompt" "job" "resume" 3 start "401 Unauthorized")
    as [H1 H2]; [lia | reflexivity |].
  split; [apply H1 | apply H2]; first [has_marker | no_marker].
Defined.

(** C2 as stated fails: a first message with an authentication marker
    that also carries a rate-limit marker is retried with backoff. *)
Lemma auth_marker_with_rate_marker_is_retried :
  Str.mentions GeminiUI.auth_markers (Str.lower "429: invalid API key")
  /\ GeminiUI.analyze_with_gemini (Fake.always_raises "429: invalid API key")
       "prompt" 3 start
     = (Raise (RuntimeError
          "Rate limit / quota exceeded after 3 attempts. Error: 429: invalid API key"),
        mkWorld 3 [1; 2]).
Proof. split; [has_marker | reflexivity]. Qed.

(** C3, as the code has it.  At any attempt [i] whose request fails
    with a message containing no rate-limit and no authentication
    marker, [analyze_with_gemini] sleeps [1 + i] seconds and goes on to
    the next attempt, unless [i] is the last one ([i >= max_retries - 1]),
    where it raises its [call_failure] error.  The other two functions
    do not retry such an error: [analyze_resume_with_inputs] and
    [analyze_resume] raise the exception they caught at once, without
    sleeping. *)
Theorem other_errors_linear_backoff
    (generate_content : gemini) (create : openai) (prompt : string)
    (max_retries i : Z) (w : world) (msg : string) (e : exn) :
  generate_content (requests w) "gemini-1.5-flash" prompt = Raises msg ->
  create (requests w) "gpt-3.5-turbo" prompt = ChatRaises e ->
  (~ Str.mentions GeminiUI.rate_limit_markers (Str.lower msg) ->
   ~ Str.mentions GeminiUI.auth_markers (Str.lower msg) ->
   GeminiUI.attempt_body generate_content prompt max_retries i w
   = if i <? max_retries - 1
     then Next (sleep (1 + i) (request w))
     else Stop (Raise (GeminiUI.call_failure msg)) (request w))
  /\
  (~ Str.mentions ResumeAccept.rate_limit_markers msg ->
   ~ Str.mentions ResumeAccept.auth_markers msg ->
   ResumeAccept.attempt_body generate_content prompt max_retries i w
   = Stop (Raise (ClientError msg)) (request w))
  /\
  ((forall m, e <> RateLimitError m) ->
   ResumeMatcher.attempt_body create prompt max_retries i w
   = Stop (Raise e) (request w)).
Proof.
  intros Hg Hc. repeat split.
  - intros Hr Ha. unfold GeminiUI.attempt_body, GeminiUI.handler.
    now rewrite Hg, (GeminiFacts.classify_other msg Hr Ha).
  - intros Hr Ha. unfold ResumeAccept.attempt_body, ResumeAccept.handler.
    now rewrite Hg, (AcceptFacts.accept_classify_other msg Hr Ha).
  - intros He. unfold ResumeMatcher.attempt_body. rewrite Hc.
    destruct e; try reflexivity. now elim (He msg0).
Qed.

Lemma other_errors_linear_backoff_witness :
  GeminiUI.attempt_body (Fake.always_raises "connection reset") "prompt" 3 1
    (mkWorld 1 [1])
  = Next (mkWorld 2 [1; 2])
  /\
  ResumeAccept.attempt_body (Fake.always_raises "connection reset") "prompt"
    3 1 (mkWorld 1 [1])
  = Stop (Raise (ClientError "connection reset")) (mkWorld 2 [1])
  /\
  ResumeMatcher.attempt_body
    (Fake.chat_always (ChatRaises (ClientError "connection reset"))) "prompt"
    3 1 (mkWorld 1 [1])
  = Stop (Raise (ClientError "connection reset")) (mkWorld 2 [1]).
Proof.
  destruct (other_errors_linear_backoff
              (Fake.always_raises "connection reset")
              (Fake.chat_always (ChatRaises (ClientError "connection reset")))
              "prompt" 3 1 (mkWorld 1 [1]) "connection reset"
              (ClientError "connection reset") eq_refl eq_refl)
    as [H1 [H2 H3]].
  split; [apply H1; no_marker | split; [apply H2; no_marker | apply H3]].
  intros m; discriminate.
Defined.

(** C3 as stated fails outside [analyze_with_gemini]: with a budget of
    three attempts, an error without any marker ends
    [analyze_resume_with_inputs] and [analyze_resume] after one request
    and no sleep. *)
Lemma other_errors_not_retried_elsewhere :
  GeminiUI.classify "connection reset" = Other
  /\ ResumeAccept.classify "connection reset" = Other
  /\ ResumeAccept.analyze_resume_with_inputs
       (Fake.always_raises "connection reset") "job" "resume" 3 start
     = (Raise (ClientError "connection reset"), mkWorld 1 [])
  /\ ResumeMatcher.analyze_resume
       (Fake.chat_always (ChatRaises (ClientError "connection reset")))
       "job" "resume" 3 start
     = (Raise (ClientError "connection reset"), mkWorld 1 []).
Proof. repeat split; reflexivity. Qed.

(** C10.  The rate-limit markers are tested first: a message that
    contains a rate-limit marker and an authentication marker (each
    function matching its own markers its own way) takes the rate-limit
    branch, which sleeps [2 ^ i] seconds and retries, or raises at the
    last attempt; it never takes the authentication branch. *)
Theorem rate_limit_tested_before_auth
    (max_retries i : Z) (w : world) (msg : string) (e : exn) :
  (Str.mentions GeminiUI.rate_limit_markers (Str.lower msg) ->
   Str.mentions GeminiUI.auth_markers (Str.lower msg) ->
   GeminiUI.classify msg = RateLimit /\
   GeminiUI.handler max_retries i msg w
   = if i <? max_retries - 1
     then Next (sleep (2 ^ i) w)
     else Stop (Raise (GeminiUI.rate_limit_exceeded max_retries msg)) w)
  /\
  (Str.mentions ResumeAccept.rate_limit_markers msg ->
   Str.mentions ResumeAccept.auth_markers msg ->
   ResumeAccept.classify msg = RateLimit /\
   ResumeAccept.handler max_retries i e msg w
   = if i <? max_retries - 1
     then Next (sleep (2 ^ i) w)
     else Stop (Raise e) w).
Proof.
  split; intros Hr _.
  - unfold GeminiUI.handler.
    now rewrite (GeminiFacts.classify_rate_limit msg Hr).
  - unfold ResumeAccept.handler.
    now rewrite (AcceptFacts.accept_classify_rate_limit msg Hr).
Qed.

Lemma rate_limit_tested_before_auth_witness :
  (GeminiUI.classify "429: invalid api key" = RateLimit /\
   GeminiUI.handler 3 0 "429: invalid api key" (mkWorld 1 [])
   = Next (mkWorld 1 [1]))
  /\
  (ResumeAccept.classify "429: invalid API key" = RateLimit /\
   ResumeAccept.handler 3 0 (ClientError "429: invalid API key")
     "429: invalid API key" (mkWorld 1 [])
   = Next (mkWorld 1 [1])).
Proof.
  split.
  - apply (proj1 (rate_limit_tested_before_auth 3 0 (mkWorld 1 [])
             "429: invalid api key" (ClientError "429: invalid api key")));
      has_marker.
  - apply (proj2 (rate_limit_tested_before_auth 3 0 (mkWorld 1 [])
             "429: invalid API key" (ClientError "429: invalid API key")));
      has_marker.
Defined.

(** C4, as the code has it.  In [analyze_with_gemini] the markers are
    sought in the lowered message, so the branch taken does not change
    when the case of any characters of the message is changed. *)
Theorem gemini_ui_classification_ignores_case (msg msg' : string) :
  Str.recase msg msg' -> GeminiUI.classify msg = GeminiUI.classify msg'.
Proof.
  intros H. unfold GeminiUI.classify. now rewrite (recase_lower msg msg' H).
Qed.

Ltac recase_step :=
  constructor;
  [ first [ left; reflexivity
          | right; left; reflexivity
          | right; right; reflexivity ] | ].

Lemma gemini_ui_classification_ignores_case_witness :
  GeminiUI.classify "Quota" = GeminiUI.classify "qUOTA".
Proof.
  apply gemini_ui_classification_ignores_case.
  do 5 recase_step. constructor.
Defined.

(** C4 as stated fails in [analyze_resume_with_inputs], which seeks
    its markers in the message as it stands: a change of case moves a
    message from one branch to another, and the run with it. *)
Lemma accept_classification_depends_on_case :
  Str.recase "quota" "QUOTA"
  /\ ResumeAccept.classify "quota" = RateLimit
  /\ ResumeAccept.classify "QUOTA" = Other
  /\ ResumeAccept.analyze_resume_with_inputs (Fake.always_raises "quota")
       "job" "resume" 2 start
     = (Raise (ClientError "quota"), mkWorld 2 [1])
  /\ ResumeAccept.analyze_resume_with_inputs (Fake.always_raises "QUOTA")
       "job" "resume" 2 start
     = (Raise (ClientError "QUOTA"), mkWorld 1 []).
Proof.
  split; [do 5 recase_step; constructor | repeat split; reflexivity].
Qed.

(** C5, as the code has it.  With [max_retries <= 0] the loop has no
    turn: [analyze_with_gemini] sends no request, does not sleep and
    returns [None]; nothing is raised.  [analyze_resume] does the same
    once its two inputs have passed the emptiness check. *)
Theorem nonpositive_budget_returns_none
    (generate_content : gemini) (create : openai)
    (prompt job_description resume_text : string) (max_retries : Z)
    (w : world) :
  max_retries <= 0 ->
  GeminiUI.analyze_with_gemini generate_content prompt max_retries w
  = (Return None, w)
  /\
  (ResumeMatcher.is_empty job_description = false ->
   ResumeMatcher.is_empty resume_text = false ->
   ResumeMatcher.analyze_resume create job_description resume_text
     max_retries w
   = (Return None, w)).
Proof.
  intros Hn. split.
  - unfold GeminiUI.analyze_with_gemini. now rewrite (range_nonpositive _ Hn).
  - intros Hj Hr. unfold ResumeMatcher.analyze_resume.
    now rewrite Hj, Hr, (range_nonpositive _ Hn).
Qed.

Lemma nonpositive_budget_returns_none_witness :
  GeminiUI.analyze_with_gemini (Fake.always_raises "429") "prompt" (-1) start
  = (Return None, start)
  /\
  ResumeMatcher.analyze_resume (Fake.chat_always (Content (Some "fine")))
    "job" "resume" (-1) start
  = (Return None, start).
Proof.
  destruct (nonpositive_budget_returns_none (Fake.always_raises "429")
              (Fake.chat_always (Content (Some "fine")))
              "prompt" "job" "resume" (-1) start) as [H1 H2]; [lia|].
  split; [exact H1 | apply H2; reflexivity].
Defined.

(** C5 as stated fails: with [max_retries = 0] the call returns
    normally, with [None]. *)
Lemma zero_budget_returns_normally :
  GeminiUI.analyze_with_gemini (Fake.always_returns (WithText (Some "text")))
    "prompt" 0 start
  = (Return None, start)
  /\
  ResumeMatcher.analyze_resume (Fake.chat_always (Content (Some "fine")))
    "job" "resume" 0 start
  = (Return None, start).
Proof. split; reflexivity. Qed.

(** C6, as the code has it.  In [analyze_with_gemini] a response that
    is falsy, has no text, or has an empty or [None] text at attempt [i]
    is handled as a raised error with the message [empty_response_msg]:
    the same handler runs, the message takes the third branch, so the
    call sleeps [1 + i] seconds and retries, or raises its
    [call_failure] error at the last attempt; the empty text is not
    returned.  In [analyze_resume_with_inputs] a response that is falsy
    or has no text becomes an error as well, which that function raises
    at once, as it does with every error of its third branch. *)
Theorem empty_response_is_an_error
    (generate_content : gemini) (prompt : string) (max_retries i : Z)
    (w : world) (r : response) :
  generate_content (requests w) "gemini-1.5-flash" prompt = Returns r ->
  (r = Falsy \/ r = NoTextAttr \/ r = WithText None \/
   r = WithText (Some "") ->
   GeminiUI.attempt_body generate_content prompt max_retries i w
   = GeminiUI.handler max_retries i GeminiUI.empty_response_msg (request w)
   /\ GeminiUI.classify GeminiUI.empty_response_msg = Other
   /\ GeminiUI.attempt_body generate_content prompt max_retries i w
      = if i <? max_retries - 1
        then Next (sleep (1 + i) (request w))
        else Stop (Raise (GeminiUI.call_failure GeminiUI.empty_response_msg))
               (request w))
  /\
  (r = Falsy \/ r = NoTextAttr ->
   ResumeAccept.attempt_body generate_content prompt max_retries i w
   = ResumeAccept.handler max_retries i
       (RuntimeError ResumeAccept.invalid_response_msg)
       ResumeAccept.invalid_response_msg (request w)
   /\ ResumeAccept.classify ResumeAccept.invalid_response_msg = Other
   /\ ResumeAccept.attempt_body generate_content prompt max_retries i w
      = Stop (Raise (RuntimeError ResumeAccept.invalid_response_msg))
          (request w)).
Proof.
  intros Hg. split.
  - intros Hr.
    assert (E : GeminiUI.attempt_body generate_content prompt max_retries i w
                = GeminiUI.handler max_retries i GeminiUI.empty_response_msg
                    (request w)).
    { unfold GeminiUI.attempt_body. rewrite Hg.
      destruct Hr as [-> | [-> | [-> | ->]]]; reflexivity. }
    split; [exact E | split; [reflexivity|]].
    rewrite E. reflexivity.
  - intros Hr.
    assert (E : ResumeAccept.attempt_body generate_content prompt
                  max_retries i w
                = ResumeAccept.handler max_retries i
                    (RuntimeError ResumeAccept.invalid_response_msg)
                    ResumeAccept.invalid_response_msg (request w)).
    { unfold ResumeAccept.attempt_body. rewrite Hg.
      destruct Hr as [-> | ->]; reflexivity. }
    split; [exact E | split; [reflexivity|]].
    rewrite E. reflexivity.
Qed.

Lemma empty_response_is_an_error_witness :
  GeminiUI.attempt_body (Fake.always_returns (WithText (Some ""))) "prompt"
    3 0 start
  = Next (mkWorld 1 [1])
  /\
  ResumeAccept.attempt_body (Fake.always_returns NoTextAttr) "prompt"
    3 0 start
  = Stop (Raise (RuntimeError "Invalid response from Gemini API"))
      (mkWorld 1 []).
Proof.
  split.
  - apply (proj1 (empty_response_is_an_error
                    (Fake.always_returns (WithText (Some ""))) "prompt" 3 0
                    start (WithText (Some "")) eq_refl)).
    right; right; right; reflexivity.
  - apply (proj2 (empty_response_is_an_error
                    (Fake.always_returns NoTextAttr) "prompt" 3 0
                    start NoTextAttr eq_refl)).
    right; reflexivity.
Defined.

(** C6 as stated fails in [analyze_resume_with_inputs]: with a budget
    of three attempts, a response without text ends the call after one
    request, and an empty text is returned as the result. *)
Lemma accept_does_not_retry_empty_response :
  ResumeAccept.analyze_resume_with_inputs (Fake.always_returns NoTextAttr)
    "job" "resume" 3 start
  = (Raise (RuntimeError "Invalid response from Gemini API"), mkWorld 1 [])
  /\
  ResumeAccept.analyze_resume_with_inputs
    (Fake.always_returns (WithText (Some ""))) "job" "resume" 3 start
  = (Return (Some ""), mkWorld 1 []).
Proof. split; reflexivity. Qed.

(* ================================================================== *)
(** * Input validation                                                 *)
(* ================================================================== *)

Lemma is_empty_spec (s : string) :
  ResumeMatcher.is_empty s = true <-> Str.blank s.
Proof.
  unfold ResumeMatcher.is_empty. rewrite <- strip_empty.
  destruct s as [|c s].
  - simpl. tauto.
  - cbn [Str.truthy negb orb]. destruct (Str.strip (String c s)); simpl.
    + tauto.
    + split; discriminate.
Qed.

(** C9.  When the job description or the resume text is empty or made
    of white space only, [analyze_resume] raises a [ValueError] whose
    message names the blank field, the job description first, and the
    world is the one it was given: no request has been sent. *)
Theorem blank_input_rejected_before_any_request
    (create : openai) (job_description resume_text : string)
    (max_retries : Z) (w : world) :
  (Str.blank job_description ->
   ResumeMatcher.analyze_resume create job_description resume_text
     max_retries w
   = (Raise (ValueError "Job description cannot be empty"), w))
  /\
  (~ Str.blank job_description -> Str.blank resume_text ->
   ResumeMatcher.analyze_resume create job_description resume_text
     max_retries w
   = (Raise (ValueError "Resume text cannot be empty"), w)).
Proof.
  unfold ResumeMatcher.analyze_resume. split.
  - intros Hj. apply is_empty_spec in Hj. now rewrite Hj.
  - intros Hj Hr. apply is_empty_spec in Hr.
    destruct (ResumeMatcher.is_empty job_description) eqn:E.
    + exfalso. apply Hj. now apply is_empty_spec.
    + now rewrite Hr.
Qed.

Ltac blank_chars :=
  let c := fresh "c" in
  let H := fresh "H" in
  intros c H; simpl in H;
  repeat (destruct H as [<- | H]; [reflexivity|]); destruct H.

Lemma blank_input_rejected_before_any_request_witness :
  ResumeMatcher.analyze_resume (Fake.chat_always (Content (Some "fine")))
    "  " "resume" 3 start
  = (Raise (ValueError "Job description cannot be empty"), start)
  /\
  ResumeMatcher.analyze_resume (Fake.chat_always (Content (Some "fine")))
    "job" "" 3 start
  = (Raise (ValueError "Resume text cannot be empty"), start).
Proof.
  split.
  - apply (proj1 (blank_input_rejected_before_any_request
                    (Fake.chat_always (Content (Some "fine")))
                    "  " "resume" 3 start)).
    blank_chars.
  - apply (proj2 (blank_input_rejected_before_any_request
                    (Fake.chat_always (Content (Some "fine")))
                    "job" "" 3 start)).
    + intros H. specialize (H "j"%char (or_introl eq_refl)). discriminate H.
    + blank_chars.
Defined.

(* ================================================================== *)
(** * The JSON salvage                                                 *)
(* ================================================================== *)

Module SpanFacts.
Import Str ResumeParser.

Lemma contains_chr_cons (a c : ascii) (r : string) :
  contains (String a "") (String c r)
  = Ascii.eqb a c || contains (String a "") r.
Proof. cbn [contains startswith]. now rewrite andb_true_r. Qed.

Lemma contains_chr_nil (a : ascii) : contains (String a "") "" = false.
Proof. reflexivity. Qed.

Lemma upto_last_close_none (s : string) :
  upto_last_close s = None <-> contains "}" s = false.
Proof.
  induction s as [|c r IH].
  - simpl. tauto.
  - cbn [upto_last_close]. rewrite contains_chr_cons, orb_false_iff, <- IH.
    rewrite (Ascii.eqb_sym "}" c).
    destruct (upto_last_close r); destruct (Ascii.eqb c "}");
      split; try tauto; try discriminate; intros [? ?]; discriminate.
Qed.

Lemma upto_last_close_built (mid post : string) :
  contains "}" post = false ->
  upto_last_close (mid ++ "}" ++ post) = Some (mid ++ "}").
Proof.
  intros Hp. induction mid as [|c mid IH].
  - simpl. apply upto_last_close_none in Hp. now rewrite Hp.
  - change (upto_last_close (String c (mid ++ "}" ++ post))
            = Some (String c (mid ++ "}"))).
    cbn [upto_last_close]. now rewrite IH.
Qed.

Lemma upto_last_close_some (s m : string) :
  upto_last_close s = Some m ->
  exists mid post,
    s = mid ++ "}" ++ post /\ m = mid ++ "}" /\ contains "}" post = false.
Proof.
  revert m. induction s as [|c r IH]; intros m; [discriminate|].
  cbn [upto_last_close]. destruct (upto_last_close r) as [m'|] eqn:E.
  - intros H; injection H as <-.
    destruct (IH m' eq_refl) as [mid [post [-> [-> Hp]]]].
    now exists (String c mid), post.
  - destruct (Ascii.eqb c "}") eqn:Ec; [|discriminate].
    intros H; injection H as <-. apply Ascii.eqb_eq in Ec as ->.
    exists "", r. repeat split. now apply upto_last_close_none.
Qed.

(** [re_search] finds exactly the span from the first opening brace
    through the last closing brace. *)
Lemma re_search_finds_span (text sub : string) :
  brace_span text sub -> re_search text = Some sub.
Proof.
  intros [pre [mid [post [-> [-> [Hpre Hpost]]]]]].
  induction pre as [|c pre IH].
  - change (re_search (String "{" ((mid ++ "}") ++ post))
            = Some (String "{" (mid ++ "}"))).
    cbn [re_search]. rewrite Ascii.eqb_refl, append_assoc.
    now rewrite (upto_last_close_built mid post Hpost).
  - rewrite contains_chr_cons in Hpre. apply orb_false_iff in Hpre as [Hc Hpre].
    change (re_search (String c (pre ++ ("{" ++ mid ++ "}") ++ post))
            = Some ("{" ++ mid ++ "}")).
    cbn [re_search]. rewrite Ascii.eqb_sym, Hc. now apply IH.
Qed.

Lemma re_search_is_span (text sub : string) :
  re_search text = Some sub -> brace_span text sub.
Proof.
  revert sub. induction text as [|c r IH]; intros sub; [discriminate|].
  cbn [re_search]. destruct (Ascii.eqb c "{") eqn:Ec.
  - apply Ascii.eqb_eq in Ec as ->.
    destruct (upto_last_close r) as [m|] eqn:E.
    + intros H; injection H as <-.
      destruct (upto_last_close_some r m E) as [mid [post [-> [-> Hp]]]].
      exists "", mid, post. repeat split; trivial.
      simpl. now rewrite append_assoc.
    + intros H. destruct (IH sub H) as [pre [mid [post [Hr [Hs _]]]]].
      apply upto_last_close_none in E.
      assert (Ho : contains "}" r = true).
      { apply contains_spec. subst r sub.
        exists (pre ++ "{" ++ mid), post.
        simpl. rewrite ?append_assoc. simpl. now rewrite ?append_assoc. }
      congruence.
  - intros H. destruct (IH sub H) as [pre [mid [post [-> [-> [Hpre Hpost]]]]]].
    exists (String c pre), mid, post. repeat split; trivial.
    rewrite contains_chr_cons, Ascii.eqb_sym, Ec. exact Hpre.
Qed.

Lemma re_search_spec (text sub : string) :
  re_search text = Some sub <-> brace_span text sub.
Proof. split; [apply re_search_is_span | apply re_search_finds_span]. Qed.

Lemma re_search_none (text : string) :
  re_search text = None <-> forall sub, ~ brace_span text sub.
Proof.
  split.
  - intros H sub Hs. apply re_search_finds_span in Hs. congruence.
  - intros H. destruct (re_search text) as [sub|] eqn:E; [|reflexivity].
    elim (H sub). now apply re_search_is_span.
Qed.

End SpanFacts.

(** The span is greedy and not brace-balanced: of two objects in one
    reply it takes everything from the first opening brace through the
    last closing brace. *)
Example re_search_is_greedy :
  ResumeParser.re_search "see {a} and {b}!" = Some "{a} and {b}".
Proof. reflexivity. Qed.

(** C7, as the code has it.  For any decoder standing for
    [json.loads]: the reply is first decoded as it stands, and a value
    so obtained is the result; when that fails, the span from the first
    opening brace through the last closing brace is decoded instead;
    when there is no such span, the call raises the [ValueError] of
    [_extract_json], "No valid JSON found in LLM response."; when the
    span does not decode, it raises the [JSONDecodeError] of the second
    decoding.  Both are instances of [ValueError]. *)
Theorem extract_direct_then_span
    (json_loads : string -> option Json.value) (raw_text : string) :
  (forall v, json_loads raw_text = Some v ->
             ResumeParser.extract json_loads raw_text = Return v)
  /\
  (json_loads raw_text = None ->
   forall sub, ResumeParser.brace_span raw_text sub ->
     ResumeParser.extract json_loads raw_text
     = match json_loads sub with
       | Some v => Return v
       | None => Raise JSONDecodeError
       end)
  /\
  (json_loads raw_text = None ->
   (forall sub, ~ ResumeParser.brace_span raw_text sub) ->
   ResumeParser.extract json_loads raw_text
   = Raise (ValueError "No valid JSON found in LLM response."))
  /\
  (json_loads raw_text = None ->
   (forall sub, ResumeParser.brace_span raw_text sub ->
                json_loads sub = None) ->
   exists e, ResumeParser.extract json_loads raw_text = Raise e
             /\ is_ValueError e = true).
Proof.
  unfold ResumeParser.extract, ResumeParser._extract_json.
  split; [|split; [|split]].
  - intros v H. now rewrite H.
  - intros H sub Hs. rewrite H.
    now rewrite (SpanFacts.re_search_finds_span raw_text sub Hs).
  - intros H Hs. rewrite H.
    apply SpanFacts.re_search_none in Hs. now rewrite Hs.
  - intros H Hs. rewrite H.
    destruct (ResumeParser.re_search raw_text) as [sub|] eqn:E.
    + apply SpanFacts.re_search_is_span in E. rewrite (Hs sub E).
      now exists JSONDecodeError.
    + now eexists.
Qed.

Lemma jane_span :
  ResumeParser.brace_span Fake.jane_with_prose Fake.jane.
Proof. apply SpanFacts.re_search_is_span. reflexivity. Qed.

Lemma extract_direct_then_span_witness :
  ResumeParser.extract Json.loads Fake.jane
  = Return (Json.JDict [("name", Json.JStr "Jane")])
  /\
  ResumeParser.extract Json.loads Fake.jane_with_prose
  = Return (Json.JDict [("name", Json.JStr "Jane")])
  /\
  ResumeParser.extract Json.loads "no json here"
  = Raise (ValueError "No valid JSON found in LLM response.")
  /\
  exists e, ResumeParser.extract Json.loads "look: {oops}" = Raise e
            /\ is_ValueError e = true.
Proof.
  split; [|split; [|split]].
  - apply (proj1 (extract_direct_then_span Json.loads Fake.jane)).
    reflexivity.
  - apply (proj1 (proj2 (extract_direct_then_span Json.loads
                           Fake.jane_with_prose))
             eq_refl Fake.jane jane_span).
  - apply (proj1 (proj2 (proj2 (extract_direct_then_span Json.loads
                                  "no json here")))).
    + reflexivity.
    + apply SpanFacts.re_search_none. reflexivity.
  - apply (proj2 (proj2 (proj2 (extract_direct_then_span Json.loads
                                  "look: {oops}")))).
    + reflexivity.
    + intros sub Hs. apply SpanFacts.re_search_finds_span in Hs.
      injection Hs as <-. reflexivity.
Defined.

(** C7 as stated fails where a span exists and does not decode: what
    is raised is the decoder's error, not the error of [_extract_json]. *)
Lemma undecodable_span_raises_decode_error :
  ResumeParser.re_search "look: {oops}" = Some "{oops}"
  /\ Json.loads "{oops}" = None
  /\ ResumeParser.extract Json.loads "look: {oops}" = Raise JSONDecodeError
  /\ ResumeParser.parse_resume Json.loads
       (Fake.chat_always (Content (Some "look: {oops}")))
       "gpt-4.1" "resume" 3 start
     = (Raise JSONDecodeError, mkWorld 1 []).
Proof. repeat split; reflexivity. Qed.

(** C8, as the code has it.  When the first reply decodes to a JSON
    object, [parse_resume] returns that object as decoded, after one
    request: it has the fields the reply has and no others, nothing is
    filled in.  In particular the reply with the one field [name] gives
    a mapping where [name] is "Jane" and no other field of the format
    exists. *)
Theorem parse_resume_returns_decoded_object
    (json_loads : string -> option Json.value) (create : openai)
    (model resume_text : string) (max_retries : Z) (w : world)
    (parsed_output : string) (fields : list (string * Json.value)) :
  (1 <= max_retries ->
   create (requests w) model (ResumeParser.prompt_of resume_text)
   = Content (Some parsed_output) ->
   json_loads parsed_output = Some (Json.JDict fields) ->
   ResumeParser.parse_resume json_loads create model resume_text
     max_retries w
   = (Return (Json.JDict fields), request w))
  /\
  ResumeParser.extract Json.loads Fake.jane
  = Return (Json.JDict [("name", Json.JStr "Jane")])
  /\
  forallb (fun k => negb (Json.has_field k
                            (Json.JDict [("name", Json.JStr "Jane")])))
    ["email"; "phone"; "location"; "summary"; "skills"; "experience";
     "education"; "certifications"; "projects"; "ats_keywords"] = true.
Proof.
  split; [|split; reflexivity].
  intros Hn Hc Hj. destruct (range_head max_retries Hn) as [rest Hr].
  unfold ResumeParser.parse_resume. rewrite Hr. apply for_in_stop.
  unfold ResumeParser.attempt_body. rewrite Hc.
  unfold ResumeParser.extract. now rewrite Hj.
Qed.

Lemma parse_resume_returns_decoded_object_witness :
  ResumeParser.parse_resume Json.loads
    (Fake.chat_always (Content (Some Fake.jane))) "gpt-4.1" "resume" 3 start
  = (Return (Json.JDict [("name", Json.JStr "Jane")]), mkWorld 1 []).
Proof.
  apply (proj1 (parse_resume_returns_decoded_object Json.loads
                  (Fake.chat_always (Content (Some Fake.jane)))
                  "gpt-4.1" "resume" 3 start Fake.jane
                  [("name", Json.JStr "Jane")])).
  - lia.
  - reflexivity.
  - reflexivity.
Defined.

(** C8 as stated fails: the mapping returned for the reply with the one
    field [name] has no [email] and no [skills]; they are absent, not
    empty. *)
Lemma omitted_fields_are_absent :
  let returned :=
    fst (ResumeParser.parse_resume Json.loads
           (Fake.chat_always (Content (Some Fake.jane)))
           "gpt-4.1" "resume" 3 start) in
  returned = Return (Json.JDict [("name", Json.JStr "Jane")])
  /\ Json.dict_get "email" [("name", Json.JStr "Jane")] = None
  /\ Json.dict_get "skills" [("name", Json.JStr "Jane")] = None
  /\ Json.dict_get "name" [("name", Json.JStr "Jane")]
     = Some (Json.JStr "Jane").
Proof. repeat split; reflexivity. Qed.

(* ================================================================== *)
(** * Whole runs of the retry loops                                    *)
(* ================================================================== *)

Lemma pow2_succ (i : Z) : 0 <= i -> 2 ^ (i + 1) = 2 * 2 ^ i.
Proof. intros H. now rewrite Z.pow_add_r, Z.pow_1_r, Z.mul_comm by lia. Qed.

Lemma pow2_pos (i : Z) : 0 <= i -> 1 <= 2 ^ i.
Proof. intros H. assert (0 < 2 ^ i) by (apply Z.pow_pos_nonneg; lia). lia. Qed.

Lemma linear_below_pow2 (i : Z) : 0 <= i -> 1 + i <= 2 ^ i.
Proof.
  intros H. pattern i. apply natlike_ind; [reflexivity | | assumption].
  intros x Hx IH. unfold Z.succ. rewrite (pow2_succ x Hx). lia.
Qed.

(** A loop whose every turn either stops with the verdict on its
    request, or, the verdict being "retry", sleeps [2 ^ attempt] and
    goes on unless the attempt is the last: it stops at the first
    request that is not to be retried, or at the last attempt, having
    slept the powers of two in order. *)
Lemma exponential_retry_run {A : Type} (body : Z -> world -> flow A)
    (none : A) (n : Z) (verdict : nat -> outcome A + outcome A) :
  (forall i w,
      body i w = match verdict (requests w) with
                 | inl r => Stop r (request w)
                 | inr r => if i <? n - 1
                            then Next (sleep (2 ^ i) (request w))
                            else Stop r (request w)
                 end) ->
  forall (m : nat) (i : Z) (w : world),
    i + Z.of_nat (S m) = n ->
    exists k : nat,
      (k <= m)%nat
      /\ (forall j, (j < k)%nat -> exists r, verdict (requests w + j)%nat = inr r)
      /\ for_in (count_from i (S m)) body none w
         = (match verdict (requests w + k)%nat with inl r => r | inr r => r end,
            mkWorld (requests w + S k)
                    (slept w ++ map (Z.pow 2) (count_from i k))%list)
      /\ ((k < m)%nat -> exists r, verdict (requests w + k)%nat = inl r).
Proof.
  intros Hbody. induction m as [|m IH]; intros i w Hi.
  - exists 0%nat. split; [lia|]. split; [intros j Hj; lia|]. split; [|lia].
    cbn [count_from for_in map]. rewrite Hbody, Nat.add_0_r, app_nil_r.
    replace (i <? n - 1) with false by (symmetry; apply Z.ltb_ge; lia).
    replace (requests w + 1)%nat with (S (requests w)) by lia.
    destruct (verdict (requests w)); reflexivity.
  - change (count_from i (S (S m))) with (i :: count_from (i + 1) (S m)).
    cbn [for_in]. rewrite Hbody.
    destruct (verdict (requests w)) as [r|r] eqn:Ev.
    + exists 0%nat. split; [lia|]. split; [intros j Hj; lia|].
      rewrite Nat.add_0_r, Ev. cbn [count_from map]. rewrite app_nil_r.
      replace (requests w + 1)%nat with (S (requests w)) by lia.
      split; [reflexivity | intros _; now exists r].
    + replace (i <? n - 1) with true by (symmetry; apply Z.ltb_lt; lia).
      destruct (IH (i + 1) (sleep (2 ^ i) (request w)) ltac:(lia))
        as [k [Hk [Hretry [Hrun Hstop]]]].
      cbn [requests slept sleep request] in Hretry, Hrun, Hstop.
      exists (S k). split; [lia|]. split; [|split].
      * intros [|j] Hj.
        -- rewrite Nat.add_0_r. now exists r.
        -- replace (requests w + S j)%nat with (S (requests w) + j)%nat by lia.
           apply Hretry. lia.
      * rewrite Hrun.
        replace (S (requests w) + k)%nat with (requests w + S k)%nat by lia.
        replace (S (requests w) + S k)%nat with (requests w + S (S k))%nat by lia.
        cbn [count_from map]. now rewrite <- app_assoc.
      * intros Hlt.
        replace (requests w + S k)%nat with (S (requests w) + k)%nat by lia.
        apply Hstop. lia.
Qed.

(** X1.  A run of [analyze_resume] on two non-blank texts with a
    budget of at least one attempt stops at the first request that does
    not raise [RateLimitError], or at the last attempt: every earlier
    request raised [RateLimitError]; the result is the content of that
    reply, or the exception it raised; one request per attempt was
    sent, and the sleeps are [2 ^ 0], [2 ^ 1], ... in order, one after
    each attempt but the last made. *)
Theorem analyze_resume_run
    (create : openai) (job_description resume_text : string)
    (max_retries : Z) (w : world) :
  ResumeMatcher.is_empty job_description = false ->
  ResumeMatcher.is_empty resume_text = false ->
  1 <= max_retries ->
  let prompt := ResumeMatcher.prompt_of job_description resume_text in
  let run := ResumeMatcher.analyze_resume create job_description resume_text
               max_retries w in
  exists k : nat,
    Z.of_nat k < max_retries
    /\ (forall j, (j < k)%nat ->
          exists msg, create (requests w + j)%nat "gpt-3.5-turbo" prompt
                      = ChatRaises (RateLimitError msg))
    /\ snd run = mkWorld (requests w + S k)
                   (slept w ++ map (Z.pow 2) (count_from 0 k))%list
    /\ match create (requests w + k)%nat "gpt-3.5-turbo" prompt with
       | Content content => fst run = Return content
       | ChatRaises (RateLimitError msg) =>
           Z.of_nat k = max_retries - 1 /\ fst run = Raise (RateLimitError msg)
       | ChatRaises e => fst run = Raise e
       end.
Proof.
  intros Hj Hr Hn prompt run. subst run.
  unfold ResumeMatcher.analyze_resume. rewrite Hj, Hr.
  fold prompt. rewrite (range_positive _ Hn).
  set (verdict := fun c : nat =>
         match create c "gpt-3.5-turbo" prompt with
         | Content content => inl (Return content)
         | ChatRaises (RateLimitError msg) =>
             inr (Raise (RateLimitError msg) : outcome (option string))
         | ChatRaises e => inl (Raise e)
         end).
  destruct (exponential_retry_run
              (ResumeMatcher.attempt_body create prompt max_retries) None
              max_retries verdict) with (m := Z.to_nat (max_retries - 1))
              (i := 0) (w := w) as [k [Hk [Hretry [Hrun Hstop]]]].
  - intros i w0. unfold ResumeMatcher.attempt_body, verdict.
    destruct (create (requests w0) "gpt-3.5-turbo" prompt) as [c|e];
      [reflexivity | destruct e; reflexivity].
  - lia.
  - exists k. split; [lia|]. split; [|split].
    + intros j Hjk. destruct (Hretry j Hjk) as [r Hv]. unfold verdict in Hv.
      destruct (create (requests w + j)%nat "gpt-3.5-turbo" prompt) as [c|e];
        [discriminate | destruct e; try discriminate]. now exists msg.
    + now rewrite Hrun.
    + rewrite Hrun. cbn [fst].
      assert (Hlast : (k < Z.to_nat (max_retries - 1))%nat
                      \/ Z.of_nat k = max_retries - 1) by lia.
      unfold verdict in *.
      destruct (create (requests w + k)%nat "gpt-3.5-turbo" prompt) as [c|e];
        [reflexivity | destruct e; try reflexivity].
      destruct Hlast as [Hlt | Heq]; [|now split].
      destruct (Hstop Hlt) as [r Hv]. discriminate.
Qed.

Lemma analyze_resume_run_witness :
  let create := FakeChat.scripted
                  [ChatRaises (RateLimitError "slow down")]
                  (Content (Some "analysis")) in
  let prompt := ResumeMatcher.prompt_of "job" "resume" in
  let run := ResumeMatcher.analyze_resume create "job" "resume" 3 start in
  exists k : nat,
    Z.of_nat k < 3
    /\ (forall j, (j < k)%nat ->
          exists msg, create (requests start + j)%nat "gpt-3.5-turbo" prompt
                      = ChatRaises (RateLimitError msg))
    /\ snd run = mkWorld (requests start + S k)
                   (slept start ++ map (Z.pow 2) (count_from 0 k))%list
    /\ match create (requests start + k)%nat "gpt-3.5-turbo" prompt with
       | Content content => fst run = Return content
       | ChatRaises (RateLimitError msg) =>
           Z.of_nat k = 3 - 1 /\ fst run = Raise (RateLimitError msg)
       | ChatRaises e => fst run = Raise e
       end.
Proof.
  apply (analyze_resume_run
           (FakeChat.scripted [ChatRaises (RateLimitError "slow down")]
              (Content (Some "analysis")))
           "job" "resume" 3 start); [reflexivity | reflexivity | lia].
Defined.

Example analyze_resume_one_retry :
  ResumeMatcher.analyze_resume
    (FakeChat.scripted [ChatRaises (RateLimitError "slow down")]
       (Content (Some "analysis")))
    "job" "resume" 3 start
  = (Return (Some "analysis"), mkWorld 2 [1]).
Proof. reflexivity. Qed.

(** X2.  A run of [parse_resume] with a budget of at least one attempt
    stops at the first request that does not raise [RateLimitError], or
    at the last attempt, with the same schedule of sleeps.  A reply is
    never retried: its text goes through [extract], whose value or
    error is the result, and a reply without content raises a
    [TypeError]. *)
Theorem parse_resume_run
    (json_loads : string -> option Json.value) (create : openai)
    (model resume_text : string) (max_retries : Z) (w : world) :
  1 <= max_retries ->
  let prompt := ResumeParser.prompt_of resume_text in
  let run := ResumeParser.parse_resume json_loads create model resume_text
               max_retries w in
  exists k : nat,
    Z.of_nat k < max_retries
    /\ (forall j, (j < k)%nat ->
          exists msg, create (requests w + j)%nat model prompt
                      = ChatRaises (RateLimitError msg))
    /\ snd run = mkWorld (requests w + S k)
                   (slept w ++ map (Z.pow 2) (count_from 0 k))%list
    /\ match create (requests w + k)%nat model prompt with
       | Content (Some parsed_output) =>
           fst run = ResumeParser.extract json_loads parsed_output
       | Content None => exists msg, fst run = Raise (TypeError msg)
       | ChatRaises (RateLimitError msg) =>
           Z.of_nat k = max_retries - 1 /\ fst run = Raise (RateLimitError msg)
       | ChatRaises e => fst run = Raise e
       end.
Proof.
  intros Hn prompt run. subst run.
  unfold ResumeParser.parse_resume. fold prompt. rewrite (range_positive _ Hn).
  set (verdict := fun c : nat =>
         match create c model prompt with
         | Content (Some parsed_output) =>
             inl (ResumeParser.extract json_loads parsed_output)
         | Content None =>
             inl (Raise (TypeError
               "the JSON object must be str, bytes or bytearray, not NoneType"))
         | ChatRaises (RateLimitError msg) =>
             inr (Raise (RateLimitError msg) : outcome Json.value)
         | ChatRaises e => inl (Raise e)
         end).
  destruct (exponential_retry_run
              (ResumeParser.attempt_body json_loads create model prompt
                 max_retries) Json.JNull
              max_retries verdict) with (m := Z.to_nat (max_retries - 1))
              (i := 0) (w := w) as [k [Hk [Hretry [Hrun Hstop]]]].
  - intros i w0. unfold ResumeParser.attempt_body, verdict.
    destruct (create (requests w0) model prompt) as [[c|]|e];
      [reflexivity | reflexivity | destruct e; reflexivity].
  - lia.
  - exists k. split; [lia|]. split; [|split].
    + intros j Hjk. destruct (Hretry j Hjk) as [r Hv]. unfold verdict in Hv.
      destruct (create (requests w + j)%nat model prompt) as [[c|]|e];
        [discriminate | discriminate | destruct e; try discriminate].
      now exists msg.
    + now rewrite Hrun.
    + rewrite Hrun. cbn [fst].
      assert (Hlast : (k < Z.to_nat (max_retries - 1))%nat
                      \/ Z.of_nat k = max_retries - 1) by lia.
      unfold verdict in *.
      destruct (create (requests w + k)%nat model prompt) as [[c|]|e];
        [reflexivity | eauto | destruct e; try reflexivity].
      destruct Hlast as [Hlt | Heq]; [|now split].
      destruct (Hstop Hlt) as [r Hv]. discriminate.
Qed.

Lemma parse_resume_run_witness :
  let create := FakeChat.scripted
                  [ChatRaises (RateLimitError "slow down")]
                  (Content (Some "not json")) in
  let prompt := ResumeParser.prompt_of "resume" in
  let run := ResumeParser.parse_resume Json.loads create "gpt-4.1" "resume"
               3 start in
  exists k : nat,
    Z.of_nat k < 3
    /\ (forall j, (j < k)%nat ->
          exists msg, create (requests start + j)%nat "gpt-4.1" prompt
                      = ChatRaises (RateLimitError msg))
    /\ snd run = mkWorld (requests start + S k)
                   (slept start ++ map (Z.pow 2) (count_from 0 k))%list
    /\ match create (requests start + k)%nat "gpt-4.1" prompt with
       | Content (Some parsed_output) =>
           fst run = ResumeParser.extract Json.loads parsed_output
       | Content None => exists msg, fst run = Raise (TypeError msg)
       | ChatRaises (RateLimitError msg) =>
           Z.of_nat k = 3 - 1 /\ fst run = Raise (RateLimitError msg)
       | ChatRaises e => fst run = Raise e
       end.
Proof.
  apply (parse_resume_run Json.loads
           (FakeChat.scripted [ChatRaises (RateLimitError "slow down")]
              (Content (Some "not json")))
           "gpt-4.1" "resume" 3 start); lia.
Defined.

(** A reply that cannot be decoded ends the run although two attempts
    are left. *)
Example parse_resume_does_not_retry_bad_json :
  ResumeParser.parse_resume Json.loads
    (FakeChat.scripted [ChatRaises (RateLimitError "slow down")]
       (Content (Some "not json")))
    "gpt-4.1" "resume" 4 start
  = (Raise (ValueError "No valid JSON found in LLM response."),
     mkWorld 2 [1]).
Proof. reflexivity. Qed.

(** X3.  A run of [analyze_resume_with_inputs] (the part after the two
    texts are read) with a budget of at least one attempt stops at the
    first request that is not a rate-limit failure, or at the last
    attempt: a response with a text attribute gives that text, even
    [None] or empty; any other response gives the "Invalid response"
    error; a failure is raised again as caught.  The sleeps are
    [2 ^ 0], [2 ^ 1], ... in order. *)
Theorem analyze_resume_with_inputs_run
    (generate_content : gemini) (job_description resume_text : string)
    (max_retries : Z) (w : world) :
  1 <= max_retries ->
  let prompt := GeminiUI.get_prompt job_description resume_text in
  let run := ResumeAccept.analyze_resume_with_inputs generate_content
               job_description resume_text max_retries w in
  exists k : nat,
    Z.of_nat k < max_retries
    /\ (forall j, (j < k)%nat ->
          exists msg,
            generate_content (requests w + j)%nat "gemini-1.5-flash" prompt
            = Raises msg
            /\ ResumeAccept.classify msg = RateLimit)
    /\ snd run = mkWorld (requests w + S k)
                   (slept w ++ map (Z.pow 2) (count_from 0 k))%list
    /\ match generate_content (requests w + k)%nat "gemini-1.5-flash" prompt
       with
       | Returns (WithText text) => fst run = Return text
       | Returns _ =>
           fst run = Raise (RuntimeError ResumeAccept.invalid_response_msg)
       | Raises msg =>
           fst run = Raise (ClientError msg)
           /\ (ResumeAccept.classify msg = RateLimit ->
               Z.of_nat k = max_retries - 1)
       end.
Proof.
  intros Hn prompt run. subst run.
  unfold ResumeAccept.analyze_resume_with_inputs. fold prompt.
  rewrite (range_positive _ Hn).
  set (verdict := fun c : nat =>
         match generate_content c "gemini-1.5-flash" prompt with
         | Returns (WithText text) => inl (Return text)
         | Returns _ =>
             inl (Raise (RuntimeError ResumeAccept.invalid_response_msg))
         | Raises msg =>
             match ResumeAccept.classify msg with
             | RateLimit => inr (Raise (ClientError msg) : outcome (option string))
             | _ => inl (Raise (ClientError msg))
             end
         end).
  destruct (exponential_retry_run
              (ResumeAccept.attempt_body generate_content prompt max_retries)
              None max_retries verdict) with (m := Z.to_nat (max_retries - 1))
              (i := 0) (w := w) as [k [Hk [Hretry [Hrun Hstop]]]].
  - intros i w0. unfold ResumeAccept.attempt_body, verdict.
    destruct (generate_content (requests w0) "gemini-1.5-flash" prompt)
      as [[| |t]|msg]; try reflexivity.
    unfold ResumeAccept.handler.
    destruct (ResumeAccept.classify msg); reflexivity.
  - lia.
  - exists k. split; [lia|]. split; [|split].
    + intros j Hjk. destruct (Hretry j Hjk) as [r Hv]. unfold verdict in Hv.
      destruct (generate_content (requests w + j)%nat "gemini-1.5-flash" prompt)
        as [[| |t]|msg]; try discriminate.
      exists msg. split; [reflexivity|].
      destruct (ResumeAccept.classify msg); [reflexivity | discriminate ..].
    + now rewrite Hrun.
    + rewrite Hrun. cbn [fst].
      assert (Hlast : (k < Z.to_nat (max_retries - 1))%nat
                      \/ Z.of_nat k = max_retries - 1) by lia.
      unfold verdict in *.
      destruct (generate_content (requests w + k)%nat "gemini-1.5-flash" prompt)
        as [[| |t]|msg]; try reflexivity.
      destruct (ResumeAccept.classify msg) eqn:Ec.
      * split; [reflexivity|]. intros _.
        destruct Hlast as [Hlt | Heq]; [|assumption].
        destruct (Hstop Hlt) as [r Hv]. discriminate.
      * split; [reflexivity | discriminate].
      * split; [reflexivity | discriminate].
Qed.

Lemma analyze_resume_with_inputs_run_witness :
  let gc := Fake.scripted [Raises "429"] (Returns (WithText (Some "analysis"))) in
  let prompt := GeminiUI.get_prompt "job" "resume" in
  let run := ResumeAccept.analyze_resume_with_inputs gc "job" "resume" 3 start in
  exists k : nat,
    Z.of_nat k < 3
    /\ (forall j, (j < k)%nat ->
          exists msg,
            gc (requests start + j)%nat "gemini-1.5-flash" prompt = Raises msg
            /\ ResumeAccept.classify msg = RateLimit)
    /\ snd run = mkWorld (requests start + S k)
                   (slept start ++ map (Z.pow 2) (count_from 0 k))%list
    /\ match gc (requests start + k)%nat "gemini-1.5-flash" prompt with
       | Returns (WithText text) => fst run = Return text
       | Returns _ =>
           fst run = Raise (RuntimeError ResumeAccept.invalid_response_msg)
       | Raises msg =>
           fst run = Raise (ClientError msg)
           /\ (ResumeAccept.classify msg = RateLimit -> Z.of_nat k = 3 - 1)
       end.
Proof.
  apply (analyze_resume_with_inputs_run
           (Fake.scripted [Raises "429"] (Returns (WithText (Some "analysis"))))
           "job" "resume" 3 start); lia.
Defined.

(* ------------------------------------------------------------------ *)
(** ** [analyze_with_gemini] against any model                         *)
(* ------------------------------------------------------------------ *)

Module GeminiRun.
Import GeminiUI GeminiEnds.

Lemma handler_step (n i : Z) (msg : string) (w : world) :
  0 <= i ->
  (exists t, handler n i msg w = Next (sleep t w)
             /\ i < n - 1 /\ 1 <= t <= 2 ^ i)
  \/ (exists r, handler n i msg w = Stop r w /\ terminal n r).
Proof.
  intros Hi. unfold handler, terminal.
  destruct (classify msg); destruct (i <? n - 1) eqn:E;
    try (apply Z.ltb_lt in E).
  - left. exists (2 ^ i). repeat split; trivial; [apply pow2_pos; lia | lia].
  - right. eauto 7.
  - right. eauto 7.
  - right. eauto 7.
  - left. exists (1 + i). repeat split; trivial;
      [lia | apply linear_below_pow2; lia].
  - right. eauto 7.
Qed.

Lemma attempt_step (generate_content : gemini) (prompt : string)
    (n i : Z) (w : world) :
  0 <= i ->
  (exists t, attempt_body generate_content prompt n i w
             = Next (sleep t (request w))
             /\ i < n - 1 /\ 1 <= t <= 2 ^ i)
  \/ (exists r, attempt_body generate_content prompt n i w
                = Stop r (request w) /\ terminal n r).
Proof.
  intros Hi. unfold attempt_body.
  destruct (generate_content (requests w) "gemini-1.5-flash" prompt)
    as [r|msg]; [|now apply handler_step].
  destruct (checked_text r) as [text|] eqn:E; [|now apply handler_step].
  right. exists (Return (Some text)). split; [reflexivity|].
  left. exists text. split; [reflexivity|].
  destruct r as [| |[t|]]; try discriminate. simpl in E.
  destruct t; [discriminate|]. injection E as <-. discriminate.
Qed.

Lemma loop_bounds (generate_content : gemini) (prompt : string) (n : Z) :
  forall (m : nat) (i : Z) (w : world),
    0 <= i -> i + Z.of_nat (S m) = n ->
    exists (k : nat) (added : list Z) (r : outcome (option string)),
      (k <= m)%nat
      /\ for_in (count_from i (S m)) (attempt_body generate_content prompt n)
           None w
         = (r, mkWorld (requests w + S k) (slept w ++ added)%list)
      /\ List.length added = k
      /\ 0 <= fold_right Z.add 0 added <= 2 ^ (i + Z.of_nat k) - 2 ^ i
      /\ terminal n r.
Proof.
  induction m as [|m IH]; intros i w Hi Hn.
  - destruct (attempt_step generate_content prompt n i w Hi)
      as [[t [_ [Hlt _]]] | [r [Hs Ht]]]; [lia|].
    exists 0%nat, [], r. split; [lia|]. split; [|split; [reflexivity|]].
    + cbn [count_from for_in]. rewrite Hs, app_nil_r.
      now replace (requests w + 1)%nat with (S (requests w)) by lia.
    + split; [|assumption]. simpl. rewrite Z.add_0_r. lia.
  - change (count_from i (S (S m))) with (i :: count_from (i + 1) (S m)).
    cbn [for_in].
    destruct (attempt_step generate_content prompt n i w Hi)
      as [[t [Hs [Hlt Ht]]] | [r [Hs Ht]]]; rewrite Hs.
    + destruct (IH (i + 1) (sleep t (request w)) ltac:(lia) ltac:(lia))
        as [k [added [r [Hk [Hrun [Hlen [Hsum Hterm]]]]]]].
      cbn [requests slept sleep request] in Hrun.
      exists (S k), (t :: added), r. split; [lia|]. split; [|split].
      * rewrite Hrun. rewrite <- app_assoc. cbn [app].
        now replace (S (requests w) + S k)%nat
          with (requests w + S (S k))%nat by lia.
      * simpl. now rewrite Hlen.
      * split; [|assumption]. cbn [fold_right].
        replace (i + Z.of_nat (S k)) with (i + 1 + Z.of_nat k) by lia.
        rewrite (pow2_succ i Hi) in Hsum. lia.
    + exists 0%nat, [], r. split; [lia|]. split; [|split; [reflexivity|]].
      * rewrite app_nil_r.
        now replace (requests w + 1)%nat with (S (requests w)) by lia.
      * split; [|assumption]. simpl. rewrite Z.add_0_r. lia.
Qed.

End GeminiRun.

(** X4.  Whatever the model does, a run of [analyze_with_gemini] with
    a budget [max_retries >= 1] sends at least one request and at most
    [max_retries], sleeps once between two requests and not after the
    last, and sleeps no more than [2 ^ (max_retries - 1) - 1] seconds in
    all. *)
Theorem analyze_with_gemini_bounds
    (generate_content : gemini) (prompt : string) (max_retries : Z)
    (w : world) :
  1 <= max_retries ->
  let w' := snd (GeminiUI.analyze_with_gemini generate_content prompt
                   max_retries w) in
  (requests w < requests w' <= requests w + Z.to_nat max_retries)%nat
  /\ (exists added, slept w' = (slept w ++ added)%list
                    /\ S (List.length added) = (requests w' - requests w)%nat)
  /\ total_backoff w <= total_backoff w'
     <= total_backoff w + (2 ^ (max_retries - 1) - 1).
Proof.
  intros Hn w'. subst w'. unfold GeminiUI.analyze_with_gemini.
  rewrite (range_positive _ Hn).
  destruct (GeminiRun.loop_bounds generate_content prompt max_retries
              (Z.to_nat (max_retries - 1)) 0 w ltac:(lia) ltac:(lia))
    as [k [added [r [Hk [Hrun [Hlen [Hsum _]]]]]]].
  rewrite Hrun. cbn [snd requests slept]. split; [lia|]. split.
  - exists added. split; [reflexivity | lia].
  - unfold total_backoff. cbn [slept]. rewrite sum_app.
    assert (2 ^ (0 + Z.of_nat k) <= 2 ^ (max_retries - 1))
      by (apply Z.pow_le_mono_r; lia).
    change (2 ^ 0) with 1 in Hsum. lia.
Qed.

Lemma analyze_with_gemini_bounds_witness :
  let w' := snd (GeminiUI.analyze_with_gemini
                   (Fake.scripted [Raises "timeout"; Raises "429"]
                      (Returns (WithText (Some "analysis"))))
                   "prompt" 6 start) in
  (requests start < requests w' <= requests start + Z.to_nat 6)%nat
  /\ (exists added, slept w' = (slept start ++ added)%list
                    /\ S (List.length added)
                       = (requests w' - requests start)%nat)
  /\ total_backoff start <= total_backoff w'
     <= total_backoff start + (2 ^ (6 - 1) - 1).
Proof.
  apply (analyze_with_gemini_bounds
           (Fake.scripted [Raises "timeout"; Raises "429"]
              (Returns (WithText (Some "analysis"))))
           "prompt" 6 start).
  lia.
Defined.

(** X5.  Whatever the model does, a run of [analyze_with_gemini] with a
    budget of at least one attempt ends in one of four ways: it returns
    a text that is not empty, or it raises one of its three errors, the
    rate-limit error, the authentication error or the call failure.  It
    never returns [None] or an empty text. *)
Theorem analyze_with_gemini_terminal
    (generate_content : gemini) (prompt : string) (max_retries : Z)
    (w : world) :
  1 <= max_retries ->
  let r := fst (GeminiUI.analyze_with_gemini generate_content prompt
                  max_retries w) in
  (exists text, r = Return (Some text) /\ text <> "")
  \/ (exists msg, r = Raise (GeminiUI.rate_limit_exceeded max_retries msg))
  \/ (exists msg, r = Raise (GeminiUI.authentication_error msg))
  \/ (exists msg, r = Raise (GeminiUI.call_failure msg)).
Proof.
  intros Hn r. subst r. unfold GeminiUI.analyze_with_gemini.
  rewrite (range_positive _ Hn).
  destruct (GeminiRun.loop_bounds generate_content prompt max_retries
              (Z.to_nat (max_retries - 1)) 0 w ltac:(lia) ltac:(lia))
    as [k [added [r [_ [Hrun [_ [_ Hterm]]]]]]].
  rewrite Hrun. exact Hterm.
Qed.

Lemma analyze_with_gemini_terminal_witness :
  let r := fst (GeminiUI.analyze_with_gemini
                  (Fake.always_returns (WithText (Some ""))) "prompt" 2 start) in
  (exists text, r = Return (Some text) /\ text <> "")
  \/ (exists msg, r = Raise (GeminiUI.rate_limit_exceeded 2 msg))
  \/ (exists msg, r = Raise (GeminiUI.authentication_error msg))
  \/ (exists msg, r = Raise (GeminiUI.call_failure msg)).
Proof.
  apply (analyze_with_gemini_terminal
           (Fake.always_returns (WithText (Some ""))) "prompt" 2 start).
  lia.
Defined.

Module GeminiSchedule.
Import GeminiUI GeminiEnds.

Section Loop.
Variable generate_content : gemini.
Variable prompt : string.
Variable n : Z.

Lemma attempt_body_cases (i : Z) (w : world) :
  (retried generate_content prompt (requests w) /\ i < n - 1 /\
   attempt_body generate_content prompt n i w
   = Next (sleep (wait_of generate_content prompt (requests w) i) (request w)))
  \/
  ((retried generate_content prompt (requests w) -> n - 1 <= i) /\
   attempt_body generate_content prompt n i w
   = Stop (end_of generate_content prompt n (requests w)) (request w)).
Proof.
  unfold attempt_body, retried, end_of, wait_of, text_of, error_msg_of, handler.
  destruct (generate_content (requests w) "gemini-1.5-flash" prompt) as [r|msg].
  - destruct (checked_text r) as [text|].
    + right. split; [intros [H _]; discriminate | reflexivity].
    + change (classify empty_response_msg) with Other.
      destruct (i <? n - 1) eqn:E.
      * left. apply Z.ltb_lt in E. repeat split; trivial; discriminate.
      * right. apply Z.ltb_ge in E. split; [intros _; lia | reflexivity].
  - destruct (classify msg) eqn:Ec; destruct (i <? n - 1) eqn:E;
      try (apply Z.ltb_lt in E); try (apply Z.ltb_ge in E).
    + left. repeat split; trivial; discriminate.
    + right. split; [intros _; lia | reflexivity].
    + right. split; [intros [_ H]; now elim H | reflexivity].
    + right. split; [intros [_ H]; now elim H | reflexivity].
    + left. repeat split; trivial; discriminate.
    + right. split; [intros _; lia | reflexivity].
Qed.

Lemma loop_run :
  forall (m : nat) (i : Z) (w : world),
    i + Z.of_nat (S m) = n ->
    exists k : nat,
      (k <= m)%nat
      /\ (forall j, (j < k)%nat ->
            retried generate_content prompt (requests w + j)%nat)
      /\ for_in (count_from i (S m)) (attempt_body generate_content prompt n)
           None w
         = (end_of generate_content prompt n (requests w + k)%nat,
            mkWorld (requests w + S k)
              (slept w ++
               map (fun j : nat =>
                      wait_of generate_content prompt (requests w + j)%nat
                        (i + Z.of_nat j))
                   (seq 0 k))%list)
      /\ ((k < m)%nat ->
          ~ retried generate_content prompt (requests w + k)%nat).
Proof.
  induction m as [|m IH]; intros i w Hi.
  - exists 0%nat. split; [lia|]. split; [intros j Hj; lia|]. split; [|lia].
    cbn [count_from for_in seq map].
    destruct (attempt_body_cases i w) as [[_ [Hlt _]] | [_ Hs]]; [lia|].
    rewrite Hs, app_nil_r, Nat.add_0_r.
    now replace (requests w + 1)%nat with (S (requests w)) by lia.
  - change (count_from i (S (S m))) with (i :: count_from (i + 1) (S m)).
    cbn [for_in].
    destruct (attempt_body_cases i w) as [[Hr [Hlt Hs]] | [Hr Hs]]; rewrite Hs.
    + destruct (IH (i + 1) (sleep (wait_of generate_content prompt (requests w) i)
                              (request w)) ltac:(lia))
        as [k [Hk [Hretry [Hrun Hstop]]]].
      cbn [requests slept sleep request] in Hretry, Hrun, Hstop.
      exists (S k). split; [lia|]. split; [|split].
      * intros [|j] Hj.
        -- now rewrite Nat.add_0_r.
        -- replace (requests w + S j)%nat with (S (requests w) + j)%nat by lia.
           apply Hretry. lia.
      * rewrite Hrun.
        replace (S (requests w) + k)%nat with (requests w + S k)%nat by lia.
        replace (S (requests w) + S k)%nat with (requests w + S (S k))%nat by lia.
        f_equal. f_equal. rewrite <- app_assoc. f_equal.
        cbn [seq map app]. rewrite Nat.add_0_r, Z.add_0_r. f_equal.
        rewrite <- seq_shift, map_map. apply map_ext. intros j.
        f_equal; lia.
      * intros Hlt'.
        replace (requests w + S k)%nat with (S (requests w) + k)%nat by lia.
        apply Hstop. lia.
    + exists 0%nat. split; [lia|]. split; [intros j Hj; lia|].
      cbn [seq map]. rewrite app_nil_r, Nat.add_0_r.
      replace (requests w + 1)%nat with (S (requests w)) by lia.
      split; [reflexivity|]. intros _ H. specialize (Hr H). lia.
Qed.

End Loop.
End GeminiSchedule.

(** X6.  A run of [analyze_with_gemini] with a budget of at least one
    attempt, against any model, request by request: it stops at the
    first request that gives a text passing the check or fails with an
    authentication message, or at the last attempt; all earlier
    requests gave no text and no authentication failure.  It ends with
    that text, or with the error of the branch the last message takes.
    After each earlier request it slept [2 ^ attempt] seconds when the
    message was of the rate-limit branch and [1 + attempt] otherwise. *)
Theorem analyze_with_gemini_run
    (generate_content : gemini) (prompt : string) (max_retries : Z)
    (w : world) :
  1 <= max_retries ->
  exists k : nat,
    Z.of_nat k < max_retries
    /\ (forall j, (j < k)%nat ->
          GeminiEnds.retried generate_content prompt (requests w + j)%nat)
    /\ GeminiUI.analyze_with_gemini generate_content prompt max_retries w
       = (GeminiEnds.end_of generate_content prompt max_retries
            (requests w + k)%nat,
          mkWorld (requests w + S k)
            (slept w ++
             map (fun j : nat =>
                    GeminiEnds.wait_of generate_content prompt
                      (requests w + j)%nat (Z.of_nat j))
                 (seq 0 k))%list)
    /\ (Z.of_nat k < max_retries - 1 ->
        ~ GeminiEnds.retried generate_content prompt (requests w + k)%nat).
Proof.
  intros Hn. unfold GeminiUI.analyze_with_gemini.
  rewrite (range_positive _ Hn).
  destruct (GeminiSchedule.loop_run generate_content prompt max_retries
              (Z.to_nat (max_retries - 1)) 0 w ltac:(lia))
    as [k [Hk [Hretry [Hrun Hstop]]]].
  exists k. split; [lia|]. split; [assumption|]. split.
  - rewrite Hrun. reflexivity.
  - intros Hlt. apply Hstop. lia.
Qed.

Lemma analyze_with_gemini_run_witness :
  let gc := Fake.scripted [Raises "timeout"; Raises "429"]
              (Returns (WithText (Some "analysis"))) in
  exists k : nat,
    Z.of_nat k < 6
    /\ (forall j, (j < k)%nat ->
          GeminiEnds.retried gc "prompt" (requests start + j)%nat)
    /\ GeminiUI.analyze_with_gemini gc "prompt" 6 start
       = (GeminiEnds.end_of gc "prompt" 6 (requests start + k)%nat,
          mkWorld (requests start + S k)
            (slept start ++
             map (fun j : nat =>
                    GeminiEnds.wait_of gc "prompt"
                      (requests start + j)%nat (Z.of_nat j))
                 (seq 0 k))%list)
    /\ (Z.of_nat k < 6 - 1 ->
        ~ GeminiEnds.retried gc "prompt" (requests start + k)%nat).
Proof.
  apply (analyze_with_gemini_run
           (Fake.scripted [Raises "timeout"; Raises "429"]
              (Returns (WithText (Some "analysis"))))
           "prompt" 6 start).
  lia.
Defined.

(** A transient failure, a rate-limit failure, then a text: sleeps of
    [1 + 0] and [2 ^ 1] seconds. *)
Example mixed_failures_then_success :
  GeminiUI.analyze_with_gemini
    (Fake.scripted [Raises "timeout"; Raises "429"]
       (Returns (WithText (Some "analysis"))))
    "prompt" 6 start
  = (Return (Some "analysis"), mkWorld 3 [1; 2]).
Proof. reflexivity. Qed.

(** X7.  When every request fails with a rate-limit message,
    [analyze_with_gemini] with a budget [max_retries >= 1] raises its
    rate-limit error after exactly [max_retries] requests and has slept
    [2 ^ (max_retries - 1) - 1] seconds in all. *)
Theorem always_rate_limited_total_backoff
    (generate_content : gemini) (prompt : string) (max_retries : Z)
    (errs : nat -> string) (w : world) :
  1 <= max_retries ->
  (forall k, generate_content k "gemini-1.5-flash" prompt = Raises (errs k)) ->
  (forall k, Str.mentions GeminiUI.rate_limit_markers (Str.lower (errs k))) ->
  let run := GeminiUI.analyze_with_gemini generate_content prompt
               max_retries w in
  fst run = Raise (GeminiUI.rate_limit_exceeded max_retries
                     (errs (requests w + Z.to_nat (max_retries - 1))%nat))
  /\ requests (snd run) = (requests w + Z.to_nat max_retries)%nat
  /\ total_backoff (snd run) = total_backoff w + (2 ^ (max_retries - 1) - 1).
Proof.
  intros Hn Hg Hm run. subst run.
  assert (Hc : forall k, GeminiUI.classify (errs k) = RateLimit)
    by (intros k; apply GeminiFacts.classify_rate_limit, Hm).
  rewrite (analyze_with_gemini_rate_limited generate_content prompt
             max_retries errs w Hn Hg Hc).
  cbn [fst snd requests]. repeat split.
  unfold total_backoff. cbn [slept]. rewrite sum_app. f_equal.
  unfold range.
  assert (G : forall (k : nat) (i : Z), 0 <= i ->
            fold_right Z.add 0 (map (Z.pow 2) (count_from i k))
            = 2 ^ (i + Z.of_nat k) - 2 ^ i).
  { induction k as [|k IH]; intros i Hi.
    - simpl. rewrite Z.add_0_r. lia.
    - cbn [count_from map fold_right]. rewrite IH by lia.
      replace (i + 1 + Z.of_nat k) with (i + Z.of_nat (S k)) by lia.
      rewrite (pow2_succ i Hi). lia. }
  rewrite G by lia. change (2 ^ 0) with 1.
  now replace (0 + Z.of_nat (Z.to_nat (max_retries - 1)))
    with (max_retries - 1) by lia.
Qed.

Lemma always_rate_limited_total_backoff_witness :
  let run := GeminiUI.analyze_with_gemini (Fake.always_raises "quota exceeded")
               "prompt" 5 start in
  fst run = Raise (GeminiUI.rate_limit_exceeded 5 "quota exceeded")
  /\ requests (snd run) = 5%nat
  /\ total_backoff (snd run) = 15.
Proof.
  apply (always_rate_limited_total_backoff
           (Fake.always_raises "quota exceeded") "prompt" 5
           (fun _ => "quota exceeded") start).
  - lia.
  - intros k. reflexivity.
  - intros k. has_marker.
Defined.

(** X8.  When every request fails with a message that has no marker,
    [analyze_with_gemini] with a budget [max_retries >= 1] raises its
    call failure after exactly [max_retries] requests and has slept
    [1 + 2 + ... + (max_retries - 1)] seconds in all. *)
Theorem always_transient_total_backoff
    (generate_content : gemini) (prompt : string) (max_retries : Z)
    (errs : nat -> string) (w : world) :
  1 <= max_retries ->
  (forall k, generate_content k "gemini-1.5-flash" prompt = Raises (errs k)) ->
  (forall k, ~ Str.mentions GeminiUI.rate_limit_markers (Str.lower (errs k))) ->
  (forall k, ~ Str.mentions GeminiUI.auth_markers (Str.lower (errs k))) ->
  let run := GeminiUI.analyze_with_gemini generate_content prompt
               max_retries w in
  fst run = Raise (GeminiUI.call_failure
                     (errs (requests w + Z.to_nat (max_retries - 1))%nat))
  /\ requests (snd run) = (requests w + Z.to_nat max_retries)%nat
  /\ 2 * total_backoff (snd run)
     = 2 * total_backoff w + max_retries * (max_retries - 1).
Proof.
  intros Hn Hg Hr Ha run. subst run.
  assert (Hc : forall k, GeminiUI.classify (errs k) = Other)
    by (intros k; apply GeminiFacts.classify_other; auto).
  rewrite (analyze_with_gemini_transient generate_content prompt
             max_retries errs w Hn Hg Hc).
  cbn [fst snd requests]. repeat split.
  unfold total_backoff. cbn [slept]. rewrite sum_app.
  unfold range.
  assert (G : forall (k : nat) (i : Z),
            2 * fold_right Z.add 0 (map (Z.add 1) (count_from i k))
            = Z.of_nat k * (2 * i + Z.of_nat k + 1)).
  { induction k as [|k IH]; intros i.
    - reflexivity.
    - cbn [count_from map fold_right].
      rewrite Z.mul_add_distr_l, IH. lia. }
  specialize (G (Z.to_nat (max_retries - 1)) 0).
  replace (Z.of_nat (Z.to_nat (max_retries - 1))) with (max_retries - 1) in G
    by lia.
  lia.
Qed.

Lemma always_transient_total_backoff_witness :
  let run := GeminiUI.analyze_with_gemini (Fake.always_raises "timeout")
               "prompt" 4 start in
  fst run = Raise (GeminiUI.call_failure "timeout")
  /\ requests (snd run) = 4%nat
  /\ 2 * total_backoff (snd run) = 12.
Proof.
  apply (always_transient_total_backoff
           (Fake.always_raises "timeout") "prompt" 4 (fun _ => "timeout") start).
  - lia.
  - intros k. reflexivity.
  - intros k. no_marker.
  - intros k. no_marker.
Defined.

(* ================================================================== *)
(** * Reading the texts from the keyboard                              *)
(* ================================================================== *)

Section StripFacts.
Import Str.

Lemma blank_append (a b : string) : blank (a ++ b) <-> blank a /\ blank b.
Proof.
  induction a as [|c a IH]; simpl.
  - split; [intros H; split; [apply blank_nil | exact H] | tauto].
  - rewrite !blank_cons, IH. tauto.
Qed.

Lemma rstrip_idem (s : string) : rstrip (rstrip s) = rstrip s.
Proof.
  induction s as [|c s IH]; [reflexivity|].
  cbn [rstrip]. destruct (rstrip s) as [|d r] eqn:E.
  - destruct (isspace c) eqn:Ec; [reflexivity|].
    cbn [rstrip]. now rewrite Ec.
  - cbn [rstrip]. cbn [rstrip] in IH. now rewrite IH.
Qed.

Lemma lstrip_head (s : string) (c : ascii) (r : string) :
  lstrip s = String c r -> isspace c = false.
Proof.
  induction s as [|d s IH]; [discriminate|]. simpl.
  destruct (isspace d) eqn:E; [assumption|].
  intros H; injection H as <- _. exact E.
Qed.

Lemma rstrip_keeps_head (c : ascii) (r : string) :
  isspace c = false -> exists r', rstrip (String c r) = String c r'.
Proof.
  intros Hc. cbn [rstrip]. destruct (rstrip r); rewrite ?Hc; eauto.
Qed.

Lemma strip_idem (s : string) : strip (strip s) = strip s.
Proof.
  unfold strip. destruct (lstrip s) as [|c r] eqn:E; [reflexivity|].
  assert (Hc := lstrip_head s c r E).
  destruct (rstrip_keeps_head c r Hc) as [r' Hr]. rewrite Hr.
  cbn [lstrip]. rewrite Hc, <- Hr. apply rstrip_idem.
Qed.

Lemma truthy_false (s : string) : truthy s = false <-> s = "".
Proof. destruct s; simpl; split; congruence. Qed.

End StripFacts.

Module ConsoleFacts.
Import Console.

Lemma is_blank_line_spec (l : string) :
  is_blank_line l = true <-> Str.blank l.
Proof.
  unfold is_blank_line. rewrite String.eqb_eq. apply strip_empty.
Qed.

(** Lines joined, one of which is not blank, are not blank. *)
Lemma join_kept_not_blank (l : string) (ls : list string) :
  is_blank_line l = false ->
  Str.truthy (Str.strip (Str.join_lines (l :: ls))) = true.
Proof.
  intros Hl. destruct (Str.strip (Str.join_lines (l :: ls))) eqn:E;
    [|reflexivity].
  exfalso. apply strip_empty in E.
  assert (Hb : Str.blank l).
  { unfold Str.join_lines in E. cbn [String.concat] in E.
    destruct ls; [exact E | now apply blank_append in E]. }
  apply is_blank_line_spec in Hb. congruence.
Qed.

Lemma accept_read_loop_spec (keys : stdin) :
  forall (lines : list string) (c : Z) (lines' : list string) (rest : stdin),
    ResumeAcceptInput.read_loop keys lines c = (Some lines', rest) ->
    exists consumed,
      keys = (map Line consumed ++ rest)%list
      /\ lines' = (lines ++ filter kept consumed)%list.
Proof.
  induction keys as [|k keys IH]; intros lines c lines' rest H.
  - injection H as <- <-. exists []. simpl. now rewrite app_nil_r.
  - destruct k as [l|]; [|discriminate]. cbn [ResumeAcceptInput.read_loop] in H.
    destruct (is_blank_line l) eqn:El.
    + destruct (c + 1 >=? 2).
      * injection H as <- <-. exists [l]. unfold kept. simpl.
        now rewrite El, app_nil_r.
      * destruct (IH _ _ _ _ H) as [consumed [-> ->]].
        exists (l :: consumed). unfold kept at 2. simpl. now rewrite El.
    + destruct (IH _ _ _ _ H) as [consumed [-> ->]].
      exists (l :: consumed). unfold kept at 2. simpl. rewrite El.
      now rewrite <- app_assoc.
Qed.

Lemma accept_read_loop_lines (ls : list string) (tail : stdin) :
  forallb kept ls = true ->
  forall (lines : list string) (c : Z),
    ls <> [] ->
    ResumeAcceptInput.read_loop (map Line ls ++ tail)%list lines c
    = ResumeAcceptInput.read_loop tail (lines ++ ls)%list 0.
Proof.
  induction ls as [|l ls IH]; intros Hk lines c Hne; [congruence|].
  simpl in Hk. apply andb_true_iff in Hk as [Hl Hk].
  unfold kept in Hl. apply negb_true_iff in Hl.
  cbn [map app ResumeAcceptInput.read_loop]. rewrite Hl.
  destruct ls as [|l' ls].
  - reflexivity.
  - rewrite (IH Hk (lines ++ [l])%list 0) by discriminate.
    now rewrite <- app_assoc.
Qed.

Lemma store_read_loop_lines (ls : list string) (tail : stdin) :
  forallb kept ls = true ->
  forall (lines : list string) (c : Z),
    c < 2 -> ls <> [] ->
    ResumeStore.read_loop (map Line ls ++ tail)%list lines c
    = ResumeStore.read_loop tail (lines ++ ls)%list 0.
Proof.
  induction ls as [|l ls IH]; intros Hk lines c Hc Hne; [congruence|].
  simpl in Hk. apply andb_true_iff in Hk as [Hl Hk].
  unfold kept in Hl. apply negb_true_iff in Hl.
  cbn [map app ResumeStore.read_loop].
  replace (c <? 2) with true by (symmetry; apply Z.ltb_lt; lia).
  rewrite Hl. destruct ls as [|l' ls].
  - reflexivity.
  - rewrite (IH Hk (lines ++ [l])%list 0) by (lia || discriminate).
    now rewrite <- app_assoc.
Qed.

(** Whenever the loop of [get_resume_from_user_input] ends normally,
    the loop of [get_multiline_input] ends with the same lines and
    leaves the same keys. *)
Lemma store_loop_is_accept_loop (keys : stdin) :
  forall (lines : list string) (c : Z) (lines' : list string) (rest : stdin),
    0 <= c < 2 ->
    ResumeStore.read_loop keys lines c = (Done (Return lines'), rest) ->
    ResumeAcceptInput.read_loop keys lines c = (Some lines', rest).
Proof.
  induction keys as [|k keys IH]; intros lines c lines' rest Hc H.
  - cbn [ResumeStore.read_loop] in H.
    replace (c <? 2) with true in H by (symmetry; apply Z.ltb_lt; lia).
    discriminate.
  - cbn [ResumeStore.read_loop] in H.
    replace (c <? 2) with true in H by (symmetry; apply Z.ltb_lt; lia).
    destruct k as [l|]; [|discriminate].
    cbn [ResumeAcceptInput.read_loop].
    destruct (is_blank_line l) eqn:El.
    + assert (Hcase : c = 0 \/ c = 1) by lia. destruct Hcase as [-> | ->].
      * change (0 + 1 >=? 2) with false. cbv iota. apply IH; [lia | exact H].
      * change (1 + 1 >=? 2) with true. cbv iota.
        change (1 + 1) with 2 in H.
        destruct keys; cbn [ResumeStore.read_loop] in H;
          change (2 <? 2) with false in H; cbv iota in H;
          injection H as <- <-; reflexivity.
    + apply IH; [lia | exact H].
Qed.

End ConsoleFacts.

Lemma returned_text_is_stripped
    (keys rest : Console.stdin) (text : string) :
  ResumeAcceptInput.get_multiline_input keys
  = (Console.Done (Return text), rest) ->
  text <> "" /\ Str.strip text = text.
Proof.
  unfold ResumeAcceptInput.get_multiline_input.
  destruct (ResumeAcceptInput.read_loop keys [] 0) as [[lines|] rest'];
    [|discriminate].
  destruct (Str.truthy (Str.strip (Str.join_lines lines))) eqn:E; simpl;
    [|discriminate].
  intros H. injection H as <- _. split.
  - intros H0. rewrite H0 in E. discriminate.
  - apply strip_idem.
Qed.

(** X9.  A text returned by [get_multiline_input] is never empty and
    has no white space at either end. *)
Theorem get_multiline_input_text_is_stripped
    (keys rest : Console.stdin) (text : string) :
  ResumeAcceptInput.get_multiline_input keys
  = (Console.Done (Return text), rest) ->
  text <> "" /\ Str.strip text = text.
Proof. apply returned_text_is_stripped. Qed.

Lemma get_multiline_input_text_is_stripped_witness :
  "Python, SQL" <> "" /\ Str.strip "Python, SQL" = "Python, SQL".
Proof.
  apply (get_multiline_input_text_is_stripped
           [Console.Line "  Python, SQL "; Console.Line "";
            Console.Line " "; Console.Line "next"]
           [Console.Line "next"] "Python, SQL").
  reflexivity.
Defined.

(** X10.  [get_multiline_input] reads a prefix of the keys and leaves
    the others; of the lines read it keeps those that are not blank, in
    order, so a single blank line between two lines of text is lost.
    It returns the kept lines joined by line feeds and stripped, and it
    raises "Input cannot be empty" exactly when it kept no line. *)
Theorem get_multiline_input_keeps_nonblank_lines
    (keys rest : Console.stdin) (r : outcome string) :
  ResumeAcceptInput.get_multiline_input keys = (Console.Done r, rest) ->
  exists consumed,
    keys = (map Console.Line consumed ++ rest)%list
    /\ ((filter Console.kept consumed <> []
         /\ r = Return (Str.strip
                          (Str.join_lines (filter Console.kept consumed))))
        \/ (filter Console.kept consumed = []
            /\ r = Raise (ValueError "Input cannot be empty"))).
Proof.
  unfold ResumeAcceptInput.get_multiline_input.
  destruct (ResumeAcceptInput.read_loop keys [] 0) as [[lines|] rest'] eqn:E;
    [|discriminate].
  destruct (ConsoleFacts.accept_read_loop_spec keys [] 0 lines rest' E)
    as [consumed [Hk Hl]]. cbn [app] in Hl. subst lines.
  destruct (filter Console.kept consumed) as [|l ls] eqn:Ef.
  - cbn -[Str.strip]. intros H. injection H as <- <-.
    exists consumed. split; [assumption|]. right. now rewrite Ef.
  - assert (Hl : Console.is_blank_line l = false).
    { assert (Hin : In l (filter Console.kept consumed))
        by (rewrite Ef; now left).
      apply filter_In in Hin as [_ Hin]. unfold Console.kept in Hin.
      now apply negb_true_iff in Hin. }
    rewrite (ConsoleFacts.join_kept_not_blank l ls Hl). cbn [negb].
    intros H. injection H as <- <-.
    exists consumed. split; [assumption|]. left. rewrite Ef.
    split; [discriminate | reflexivity].
Qed.

Lemma get_multiline_input_keeps_nonblank_lines_witness :
  exists consumed,
    [Console.Line "Senior engineer"; Console.Line "";
     Console.Line "Remote"; Console.Line ""; Console.Line "";
     Console.Line "next"]
    = (map Console.Line consumed ++ [Console.Line "next"])%list
    /\ ((filter Console.kept consumed <> []
         /\ Return (Str.join_lines ["Senior engineer"; "Remote"])
            = Return (Str.strip
                        (Str.join_lines (filter Console.kept consumed))))
        \/ (filter Console.kept consumed = []
            /\ Return (Str.join_lines ["Senior engineer"; "Remote"])
               = Raise (ValueError "Input cannot be empty"))).
Proof.
  apply (get_multiline_input_keeps_nonblank_lines
           [Console.Line "Senior engineer"; Console.Line "";
            Console.Line "Remote"; Console.Line ""; Console.Line "";
            Console.Line "next"]
           [Console.Line "next"]
           (Return (Str.join_lines ["Senior engineer"; "Remote"]))).
  reflexivity.
Defined.

Lemma lines_then_two_blanks
    (ls : list string) (b1 b2 : string) (rest : Console.stdin) :
  ls <> [] ->
  forallb Console.kept ls = true ->
  Console.is_blank_line b1 = true ->
  Console.is_blank_line b2 = true ->
  ResumeAcceptInput.get_multiline_input
    (map Console.Line ls ++ Console.Line b1 :: Console.Line b2 :: rest)%list
  = (Console.Done (Return (Str.strip (Str.join_lines ls))), rest).
Proof.
  intros Hne Hk H1 H2. unfold ResumeAcceptInput.get_multiline_input.
  rewrite (ConsoleFacts.accept_read_loop_lines ls _ Hk [] 0 Hne).
  cbn [app ResumeAcceptInput.read_loop]. rewrite H1, H2.
  change (0 + 1 >=? 2) with false. change (0 + 1 + 1 >=? 2) with true.
  cbv iota. destruct ls as [|l ls]; [congruence|].
  simpl in Hk. apply andb_true_iff in Hk as [Hl _].
  unfold Console.kept in Hl. apply negb_true_iff in Hl.
  now rewrite (ConsoleFacts.join_kept_not_blank l ls Hl).
Qed.

(** X11.  Lines of text, none of them blank, followed by two blank
    lines: [get_multiline_input] returns the lines joined and stripped
    and leaves what follows the two blank lines unread. *)
Theorem get_multiline_input_session
    (ls : list string) (b1 b2 : string) (rest : Console.stdin) :
  ls <> [] ->
  forallb Console.kept ls = true ->
  Console.is_blank_line b1 = true ->
  Console.is_blank_line b2 = true ->
  ResumeAcceptInput.get_multiline_input
    (map Console.Line ls ++ Console.Line b1 :: Console.Line b2 :: rest)%list
  = (Console.Done (Return (Str.strip (Str.join_lines ls))), rest).
Proof. apply lines_then_two_blanks. Qed.

Lemma get_multiline_input_session_witness :
  ResumeAcceptInput.get_multiline_input
    [Console.Line "QA Engineer"; Console.Line "5 years";
     Console.Line ""; Console.Line "  "; Console.Line "next"]
  = (Console.Done (Return (Str.join_lines ["QA Engineer"; "5 years"])),
     [Console.Line "next"]).
Proof.
  apply (get_multiline_input_session ["QA Engineer"; "5 years"] "" "  "
           [Console.Line "next"]); [discriminate | reflexivity ..].
Defined.

Lemma get_multiline_input_raises (keys rest : Console.stdin) (e : exn) :
  ResumeAcceptInput.get_multiline_input keys = (Console.Done (Raise e), rest) ->
  e = ValueError "Input cannot be empty".
Proof.
  unfold ResumeAcceptInput.get_multiline_input.
  destruct (ResumeAcceptInput.read_loop keys [] 0) as [[lines|] rest'];
    [|discriminate].
  destruct (Str.truthy (Str.strip (Str.join_lines lines))); simpl;
    intros H; now inversion H.
Qed.

(** X12.  [analyze_resume_with_inputs], keyboard included, either
    sends no request at all, when an interrupt came or one of the two
    texts was left blank, which it reports as a [ValueError] naming
    the text; or it calls the model with two texts that are not empty
    and carry no white space at their ends, and its result is that of
    the call. *)
Theorem analyze_resume_with_inputs_from_cases
    (generate_content : gemini) (keys : Console.stdin) (max_retries : Z)
    (w : world) :
  let out := ResumeAcceptInput.analyze_resume_with_inputs_from
               generate_content keys max_retries w in
  (snd out = w
   /\ ((exists x, fst (fst out) = Console.Escaped x)
       \/ fst (fst out)
          = Console.Done (Raise (ValueError
              "Job description error: Input cannot be empty"))
       \/ fst (fst out)
          = Console.Done (Raise (ValueError
              "Resume text error: Input cannot be empty"))))
  \/
  (exists job_description resume_text,
     job_description <> "" /\ Str.strip job_description = job_description
     /\ resume_text <> "" /\ Str.strip resume_text = resume_text
     /\ fst (fst out)
        = Console.Done
            (fst (ResumeAccept.analyze_resume_with_inputs generate_content
                    job_description resume_text max_retries w))
     /\ snd out
        = snd (ResumeAccept.analyze_resume_with_inputs generate_content
                 job_description resume_text max_retries w)).
Proof.
  intros out. subst out.
  unfold ResumeAcceptInput.analyze_resume_with_inputs_from.
  destruct (ResumeAcceptInput.get_multiline_input keys)
    as [[[jd|e]|x] rest] eqn:E1.
  - destruct (ResumeAcceptInput.get_multiline_input rest)
      as [[[rt|e]|x] rest'] eqn:E2.
    + right. exists jd, rt.
      destruct (returned_text_is_stripped _ _ _ E1) as [? ?].
      destruct (returned_text_is_stripped _ _ _ E2) as [? ?].
      destruct (ResumeAccept.analyze_resume_with_inputs generate_content
                  jd rt max_retries w) as [r w'].
      repeat split; assumption.
    + left. rewrite (get_multiline_input_raises _ _ _ E2).
      split; [reflexivity | right; right; reflexivity].
    + left. split; [reflexivity | left; now exists x].
  - left. rewrite (get_multiline_input_raises _ _ _ E1).
    split; [reflexivity | right; left; reflexivity].
  - left. split; [reflexivity | left; now exists x].
Qed.

(** X13.  A session at the keyboard, the job description and then the
    resume, each made of lines that are not blank and closed by two
    blank lines: [analyze_resume_with_inputs] calls the model with the
    two texts, joined and stripped, and leaves the following keys
    unread. *)
Theorem analyze_resume_with_inputs_from_session
    (generate_content : gemini) (job resume : list string)
    (b1 b2 b3 b4 : string) (rest : Console.stdin) (max_retries : Z)
    (w : world) :
  job <> [] -> forallb Console.kept job = true ->
  resume <> [] -> forallb Console.kept resume = true ->
  Console.is_blank_line b1 = true -> Console.is_blank_line b2 = true ->
  Console.is_blank_line b3 = true -> Console.is_blank_line b4 = true ->
  let run := ResumeAccept.analyze_resume_with_inputs generate_content
               (Str.strip (Str.join_lines job))
               (Str.strip (Str.join_lines resume)) max_retries w in
  ResumeAcceptInput.analyze_resume_with_inputs_from generate_content
    (map Console.Line job ++ Console.Line b1 :: Console.Line b2 ::
     map Console.Line resume ++ Console.Line b3 :: Console.Line b4 :: rest)%list
    max_retries w
  = (Console.Done (fst run), rest, snd run).
Proof.
  intros Hj Hjk Hr Hrk H1 H2 H3 H4 run. subst run.
  unfold ResumeAcceptInput.analyze_resume_with_inputs_from.
  rewrite (lines_then_two_blanks job b1 b2 _ Hj Hjk H1 H2).
  rewrite (lines_then_two_blanks resume b3 b4 _ Hr Hrk H3 H4).
  now destruct (ResumeAccept.analyze_resume_with_inputs generate_content _ _
                  max_retries w).
Qed.

Lemma analyze_resume_with_inputs_from_session_witness :
  ResumeAcceptInput.analyze_resume_with_inputs_from
    (Fake.always_returns (WithText (Some "analysis")))
    [Console.Line "QA role"; Console.Line ""; Console.Line "";
     Console.Line "Five years of testing"; Console.Line ""; Console.Line "";
     Console.Line "next"]
    3 start
  = (Console.Done (Return (Some "analysis")), [Console.Line "next"],
     mkWorld 1 []).
Proof.
  apply (analyze_resume_with_inputs_from_session
           (Fake.always_returns (WithText (Some "analysis")))
           ["QA role"] ["Five years of testing"] "" "" "" ""
           [Console.Line "next"] 3 start);
    first [discriminate | reflexivity].
Defined.

(** X14.  Whenever [get_resume_from_user_input] returns a text,
    [get_multiline_input] returns the same text on the same keys and
    leaves the same keys unread. *)
Theorem user_input_agrees_with_multiline_input
    (keys rest : Console.stdin) (text : string) :
  ResumeStore.get_resume_from_user_input keys
  = (Console.Done (Return text), rest) ->
  ResumeAcceptInput.get_multiline_input keys
  = (Console.Done (Return text), rest).
Proof.
  unfold ResumeStore.get_resume_from_user_input,
    ResumeAcceptInput.get_multiline_input.
  destruct (ResumeStore.read_loop keys [] 0) as [[[lines|e]|x] rest'] eqn:E;
    [|discriminate ..].
  rewrite (ConsoleFacts.store_loop_is_accept_loop keys [] 0 lines rest'
             ltac:(lia) E).
  destruct (Str.truthy (Str.strip (Str.join_lines lines))); simpl;
    [trivial | discriminate].
Qed.

Lemma user_input_agrees_with_multiline_input_witness :
  ResumeAcceptInput.get_multiline_input
    [Console.Line "Jane Doe"; Console.Line ""; Console.Line "Austin, TX";
     Console.Line ""; Console.Line ""; Console.Line "y"]
  = (Console.Done (Return (Str.join_lines ["Jane Doe"; "Austin, TX"])),
     [Console.Line "y"]).
Proof.
  apply (user_input_agrees_with_multiline_input
           [Console.Line "Jane Doe"; Console.Line ""; Console.Line "Austin, TX";
            Console.Line ""; Console.Line ""; Console.Line "y"]
           [Console.Line "y"]
           (Str.join_lines ["Jane Doe"; "Austin, TX"])).
  reflexivity.
Defined.

(** X15.  Where the two readers differ.  When the keys end before two
    blank lines in a row, [get_resume_from_user_input] lets the
    [EOFError] through and the lines read are lost, while
    [get_multiline_input] returns them.  When an interrupt comes,
    [get_resume_from_user_input] raises "Resume input cancelled by
    user", while [get_multiline_input] lets the interrupt through. *)
Theorem readers_differ_on_eof_and_interrupt
    (ls : list string) (rest : Console.stdin) :
  ls <> [] ->
  forallb Console.kept ls = true ->
  (ResumeStore.get_resume_from_user_input (map Console.Line ls)
   = (Console.Escaped Console.EOFError, [])
   /\ ResumeAcceptInput.get_multiline_input (map Console.Line ls)
      = (Console.Done (Return (Str.strip (Str.join_lines ls))), []))
  /\
  (ResumeStore.get_resume_from_user_input
     (map Console.Line ls ++ Console.CtrlC :: rest)%list
   = (Console.Done (Raise (ValueError "Resume input cancelled by user")), rest)
   /\ ResumeAcceptInput.get_multiline_input
        (map Console.Line ls ++ Console.CtrlC :: rest)%list
      = (Console.Escaped Console.KeyboardInterrupt, rest)).
Proof.
  intros Hne Hk.
  assert (Hjoin : Str.truthy (Str.strip (Str.join_lines ls)) = true).
  { destruct ls as [|l ls']; [congruence|].
    simpl in Hk. apply andb_true_iff in Hk as [Hl _].
    unfold Console.kept in Hl. apply negb_true_iff in Hl.
    now apply ConsoleFacts.join_kept_not_blank. }
  unfold ResumeStore.get_resume_from_user_input,
    ResumeAcceptInput.get_multiline_input.
  split; split.
  - rewrite <- (app_nil_r (map Console.Line ls)).
    now rewrite (ConsoleFacts.store_read_loop_lines ls [] Hk [] 0
                   ltac:(lia) Hne).
  - rewrite <- (app_nil_r (map Console.Line ls)).
    rewrite (ConsoleFacts.accept_read_loop_lines ls [] Hk [] 0 Hne).
    cbn [ResumeAcceptInput.read_loop app]. now rewrite Hjoin.
  - now rewrite (ConsoleFacts.store_read_loop_lines ls _ Hk [] 0
                   ltac:(lia) Hne).
  - now rewrite (ConsoleFacts.accept_read_loop_lines ls _ Hk [] 0 Hne).
Qed.

Lemma readers_differ_on_eof_and_interrupt_witness :
  (ResumeStore.get_resume_from_user_input [Console.Line "Jane Doe"]
   = (Console.Escaped Console.EOFError, [])
   /\ ResumeAcceptInput.get_multiline_input [Console.Line "Jane Doe"]
      = (Console.Done (Return "Jane Doe"), []))
  /\
  (ResumeStore.get_resume_from_user_input
     [Console.Line "Jane Doe"; Console.CtrlC; Console.Line "y"]
   = (Console.Done (Raise (ValueError "Resume input cancelled by user")),
      [Console.Line "y"])
   /\ ResumeAcceptInput.get_multiline_input
        [Console.Line "Jane Doe"; Console.CtrlC; Console.Line "y"]
      = (Console.Escaped Console.KeyboardInterrupt, [Console.Line "y"])).
Proof.
  apply (readers_differ_on_eof_and_interrupt ["Jane Doe"] [Console.Line "y"]);
    [discriminate | reflexivity].
Defined.

(* ================================================================== *)
(** * The saved resumes                                                *)
(* ================================================================== *)

Module StoreFacts.
Import Console.

Lemma endswith_spec (x s : string) :
  endswith x s = true <-> exists pre, s = pre ++ x.
Proof.
  induction s as [|c s IH]; cbn [endswith].
  - rewrite orb_false_r, String.eqb_eq. split.
    + intros ->. now exists "".
    + intros [pre H]. destruct pre; simpl in H; [now symmetry | discriminate].
  - rewrite orb_true_iff, String.eqb_eq, IH. split.
    + intros [-> | [pre ->]]; [now exists "" | now exists (String c pre)].
    + intros [[|c' pre] H].
      * left. now rewrite H.
      * right. injection H as _ ->. now exists pre.
Qed.

Lemma insert_perm (x : string) (l : list string) :
  Permutation (insert x l) (x :: l).
Proof.
  induction l as [|y l IH]; simpl; [reflexivity|].
  destruct (String.leb x y); [reflexivity|].
  rewrite IH. apply perm_swap.
Qed.

Lemma insert_hd (x a : string) (l : list string) :
  le a x -> HdRel le a l -> HdRel le a (insert x l).
Proof.
  intros Hax Hl. destruct l as [|y l]; simpl; [now constructor|].
  destruct (String.leb x y); constructor; trivial.
  now inversion Hl.
Qed.

Lemma insert_sorted (x : string) (l : list string) :
  Sorted le l -> Sorted le (insert x l).
Proof.
  induction 1 as [|y l Hs IH Hd]; simpl; [repeat constructor|].
  destruct (String.leb x y) eqn:E.
  - constructor; [now constructor | now constructor].
  - constructor; [assumption|]. apply insert_hd; [|assumption].
    destruct (String.leb_total x y) as [H | H]; [congruence | exact H].
Qed.

Lemma sorted_sorted (l : list string) : Sorted le (sorted l).
Proof.
  induction l as [|x l IH]; simpl; [constructor | now apply insert_sorted].
Qed.

Lemma sorted_perm (l : list string) : Permutation (sorted l) l.
Proof.
  induction l as [|x l IH]; simpl; [reflexivity|].
  rewrite insert_perm. now constructor.
Qed.

End StoreFacts.

(** X16.  [list_saved_resumes] returns the names of the directory that
    end in ".txt" or ".pdf", each as often as it is listed, in ascending
    order; when the directory cannot be listed it returns the empty
    list. *)
Theorem list_saved_resumes_sorted_filter
    (RESUME_DIR : string) (fs : Console.filesystem) :
  Sorted Console.le (ResumeStore.list_saved_resumes RESUME_DIR fs)
  /\ (forall files,
        Console.listdir fs RESUME_DIR = Some files ->
        Permutation (ResumeStore.list_saved_resumes RESUME_DIR fs)
          (filter ResumeStore.is_resume_file files))
  /\ (forall f,
        In f (ResumeStore.list_saved_resumes RESUME_DIR fs) ->
        exists stem, f = stem ++ ".txt" \/ f = stem ++ ".pdf")
  /\ (Console.listdir fs RESUME_DIR = None ->
      ResumeStore.list_saved_resumes RESUME_DIR fs = []).
Proof.
  unfold ResumeStore.list_saved_resumes.
  destruct (Console.listdir fs RESUME_DIR) as [files|].
  - split; [apply StoreFacts.sorted_sorted|]. split; [|split].
    + intros files' H. injection H as <-. apply StoreFacts.sorted_perm.
    + intros f Hin.
      apply (Permutation_in _ (StoreFacts.sorted_perm _)) in Hin.
      apply filter_In in Hin as [_ Hs]. unfold ResumeStore.is_resume_file in Hs.
      apply orb_true_iff in Hs as [Hs | Hs];
        apply StoreFacts.endswith_spec in Hs as [stem ->]; eauto.
    + discriminate.
  - split; [constructor|]. split; [discriminate|]. split; [intros f []|].
    reflexivity.
Qed.

Lemma list_saved_resumes_sorted_filter_witness :
  Permutation
    (ResumeStore.list_saved_resumes "data/resumes"
       (FakeFs.one_dir "data/resumes"
          [("zoe.txt", "Zoe"); ("notes.md", "-"); ("adam.pdf", "Adam")]))
    ["zoe.txt"; "adam.pdf"].
Proof.
  exact (proj1 (proj2 (list_saved_resumes_sorted_filter "data/resumes"
                         (FakeFs.one_dir "data/resumes"
                            [("zoe.txt", "Zoe"); ("notes.md", "-");
                             ("adam.pdf", "Adam")])))
           ["zoe.txt"; "notes.md"; "adam.pdf"] eq_refl).
Defined.

Example list_saved_resumes_ex :
  ResumeStore.list_saved_resumes "data/resumes"
    (FakeFs.one_dir "data/resumes"
       [("zoe.txt", "Zoe"); ("notes.md", "-"); ("adam.pdf", "Adam")])
  = ["adam.pdf"; "zoe.txt"].
Proof. reflexivity. Qed.

(** X17.  [get_resume_from_list] with at least one saved resume reads
    one line and takes it as a number: 0 returns the empty string; a
    number from 1 to the count of saved resumes selects, in ascending
    order of the names, the file that [get_resume_from_file] is then
    asked for; any other number raises "Invalid input: Invalid
    selection", the inner error being caught and wrapped; a line that
    is no number raises "Invalid input: " followed by the text of
    [int]'s error. *)
Theorem get_resume_from_list_choice
    (RESUME_DIR : string) (fs : Console.filesystem)
    (int_of : string -> Z + string) (typed : string) (rest : Console.stdin) :
  ResumeStore.list_saved_resumes RESUME_DIR fs <> [] ->
  let saved := ResumeStore.list_saved_resumes RESUME_DIR fs in
  let run := ResumeStore.get_resume_from_list RESUME_DIR fs int_of
               (Console.Line typed :: rest) in
  snd run = rest
  /\ (int_of typed = inl 0 -> fst run = Console.Done (Return ""))
  /\ (forall choice,
        int_of typed = inl choice ->
        1 <= choice <= Z.of_nat (List.length saved) ->
        fst run
        = ResumeStore.get_resume_from_file fs
            (Console.path_join RESUME_DIR
               (nth (Z.to_nat (choice - 1)) saved "")))
  /\ (forall choice,
        int_of typed = inl choice ->
        choice < 0 \/ Z.of_nat (List.length saved) < choice ->
        fst run
        = Console.Done (Raise (ValueError "Invalid input: Invalid selection")))
  /\ (forall err,
        int_of typed = inr err ->
        fst run = Console.Done (Raise (ValueError ("Invalid input: " ++ err)))).
Proof.
  intros Hne. cbv zeta. unfold ResumeStore.get_resume_from_list.
  destruct (ResumeStore.list_saved_resumes RESUME_DIR fs) as [|f fsaved];
    [congruence|].
  destruct (int_of typed) as [choice|err].
  - split.
    { destruct (choice =? 0); [reflexivity|].
      now destruct ((1 <=? choice)
                    && (choice <=? Z.of_nat (List.length (f :: fsaved)))). }
    split; [intros H; injection H as ->; reflexivity|].
    split; [|split; [|discriminate]].
    + intros c H [Hlo Hhi]. injection H as ->.
      replace (c =? 0) with false by (symmetry; apply Z.eqb_neq; lia).
      replace (1 <=? c) with true by (symmetry; apply Z.leb_le; lia).
      replace (c <=? Z.of_nat (List.length (f :: fsaved))) with true
        by (symmetry; apply Z.leb_le; lia).
      reflexivity.
    + intros c H Hout. injection H as ->.
      replace (c =? 0) with false by (symmetry; apply Z.eqb_neq; lia).
      destruct Hout as [Hneg | Hbig].
      * replace (1 <=? c) with false by (symmetry; apply Z.leb_gt; lia).
        reflexivity.
      * replace (c <=? Z.of_nat (List.length (f :: fsaved))) with false
          by (symmetry; apply Z.leb_gt; lia).
        now rewrite andb_false_r.
  - split; [reflexivity|]. split; [discriminate|].
    split; [discriminate|]. split; [discriminate|].
    intros e H. now injection H as ->.
Qed.

Lemma get_resume_from_list_choice_witness :
  let fs := FakeFs.one_dir "data/resumes"
              [("zoe.txt", "Zoe"); ("notes.md", "-"); ("adam.pdf", "Adam")] in
  ResumeStore.get_resume_from_list "data/resumes" fs FakeFs.digit_int
    [Console.Line "2"; Console.Line "next"]
  = (Console.Done (Return "Zoe"), [Console.Line "next"]).
Proof.
  intros fs.
  destruct (get_resume_from_list_choice "data/resumes" fs FakeFs.digit_int
              "2" [Console.Line "next"]) as [H1 [_ [H3 _]]];
    [discriminate|].
  specialize (H3 2 eq_refl). cbv zeta in H1, H3.
  rewrite (surjective_pairing
             (ResumeStore.get_resume_from_list "data/resumes" fs
                FakeFs.digit_int [Console.Line "2"; Console.Line "next"])).
  rewrite H1, H3; [reflexivity|]. vm_compute. split; discriminate.
Defined.

(** X18.  [get_resume_from_list] without a saved resume, because the
    directory cannot be listed or holds no name ending in ".txt" or
    ".pdf", raises "No saved resumes found in " followed by the
    directory, and reads nothing from the keyboard. *)
Theorem get_resume_from_list_nothing_saved
    (RESUME_DIR : string) (fs : Console.filesystem)
    (int_of : string -> Z + string) (keys : Console.stdin) :
  (Console.listdir fs RESUME_DIR = None
   \/ exists files, Console.listdir fs RESUME_DIR = Some files
                    /\ forall f, In f files ->
                                 ResumeStore.is_resume_file f = false) ->
  ResumeStore.get_resume_from_list RESUME_DIR fs int_of keys
  = (Console.Done (Raise (ValueError
       ("No saved resumes found in " ++ RESUME_DIR))), keys).
Proof.
  intros H.
  assert (E : ResumeStore.list_saved_resumes RESUME_DIR fs = []).
  { unfold ResumeStore.list_saved_resumes.
    destruct H as [-> | [files [-> Hf]]]; [reflexivity|].
    replace (filter ResumeStore.is_resume_file files) with (@nil string);
      [reflexivity|].
    symmetry. induction files as [|f files IH]; [reflexivity|].
    simpl. rewrite (Hf f (or_introl eq_refl)). apply IH.
    intros g Hg. apply Hf. now right. }
  unfold ResumeStore.get_resume_from_list. now rewrite E.
Qed.

Lemma get_resume_from_list_nothing_saved_witness :
  ResumeStore.get_resume_from_list "data/resumes"
    (FakeFs.one_dir "data/resumes" [("notes.md", "-")]) FakeFs.digit_int
    [Console.Line "1"]
  = (Console.Done (Raise (ValueError
       "No saved resumes found in data/resumes")), [Console.Line "1"]).
Proof.
  apply (get_resume_from_list_nothing_saved "data/resumes"
           (FakeFs.one_dir "data/resumes" [("notes.md", "-")])
           FakeFs.digit_int [Console.Line "1"]).
  right. exists ["notes.md"]. split; [reflexivity|].
  intros f [<- | []]. reflexivity.
Defined.

(* ================================================================== *)
(** * More on the span found by [_extract_json]                        *)
(* ================================================================== *)

Lemma re_search_none_braces (text : string) :
  ResumeParser.re_search text = None <->
  (forall pre post, text = pre ++ "{" ++ post -> Str.contains "}" post = false).
Proof.
  split.
  - induction text as [|c r IH]; intros H pre post E.
    + destruct pre; discriminate.
    + cbn [ResumeParser.re_search] in H. destruct pre as [|c' pre].
      * injection E as -> ->. rewrite Ascii.eqb_refl in H.
        destruct (ResumeParser.upto_last_close post) eqn:Eu; [discriminate|].
        now apply SpanFacts.upto_last_close_none.
      * injection E as _ ->.
        destruct (if Ascii.eqb c "{" then ResumeParser.upto_last_close _
                  else None); [discriminate|].
        now apply (IH H pre post).
  - intros H. apply SpanFacts.re_search_none. intros sub
      [pre [mid [post [-> [-> [_ Hpost]]]]]].
    specialize (H pre (mid ++ "}" ++ post)).
    assert (Hc : Str.contains "}" (mid ++ "}" ++ post) = true)
      by (apply contains_spec; now exists mid, post).
    rewrite H in Hc; [discriminate|].
    simpl. f_equal. now rewrite !append_assoc.
Qed.

(** X19.  [_extract_json] returns [m] exactly when [m] is the part of
    the text from its first opening brace through its last closing
    brace, and raises, always the same [ValueError], exactly when no
    opening brace of the text is followed by a closing brace. *)
Theorem extract_json_returns_outer_span (text : string) :
  (forall m, ResumeParser._extract_json text = Return m
             <-> ResumeParser.brace_span text m)
  /\ (forall e, ResumeParser._extract_json text = Raise e
                -> e = ValueError "No valid JSON found in LLM response.")
  /\ ((exists e, ResumeParser._extract_json text = Raise e)
      <-> (forall pre post, text = pre ++ "{" ++ post ->
                            Str.contains "}" post = false)).
Proof.
  unfold ResumeParser._extract_json. split; [|split].
  - intros m. rewrite <- SpanFacts.re_search_spec.
    destruct (ResumeParser.re_search text); split; intros H;
      try discriminate; now inversion H.
  - intros e. destruct (ResumeParser.re_search text); intros H;
      [discriminate | now inversion H].
  - rewrite <- re_search_none_braces.
    destruct (ResumeParser.re_search text); split.
    + intros [e H]; discriminate.
    + discriminate.
    + reflexivity.
    + intros _. now eexists.
Qed.

(** X20.  The span [_extract_json] returns starts with an opening
    brace, ends with a closing brace, occurs in the text, and is its own
    span: applying [_extract_json] to it returns it unchanged. *)
Theorem extract_json_is_idempotent (text m : string) :
  ResumeParser._extract_json text = Return m ->
  ResumeParser._extract_json m = Return m
  /\ Str.occurs m text
  /\ exists mid, m = "{" ++ mid ++ "}".
Proof.
  unfold ResumeParser._extract_json.
  destruct (ResumeParser.re_search text) as [sub|] eqn:E; [|discriminate].
  intros H. injection H as ->.
  apply SpanFacts.re_search_is_span in E.
  destruct E as [pre [mid [post [Ht [Hm _]]]]].
  split; [|split].
  - rewrite (SpanFacts.re_search_finds_span m m); [reflexivity|].
    exists "", mid, "". repeat split; trivial.
    simpl. now rewrite append_empty_r.
  - now exists pre, post.
  - now exists mid.
Qed.

Lemma extract_json_is_idempotent_witness :
  ResumeParser._extract_json "{a} and {b}" = Return "{a} and {b}"
  /\ Str.occurs "{a} and {b}" "see {a} and {b}!"
  /\ exists mid, "{a} and {b}" = "{" ++ mid ++ "}".
Proof.
  apply (extract_json_is_idempotent "see {a} and {b}!" "{a} and {b}").
  reflexivity.
Defined.

Lemma extract_json_returns_outer_span_witness :
  exists e, ResumeParser._extract_json "} nothing to find {" = Raise e.
Proof.
  apply (proj2 (proj2 (proj2 (extract_json_returns_outer_span
                                "} nothing to find {")))).
  apply re_search_none_braces. reflexivity.
Defined.
